(** * flex_model: tree codec, hook pipeline and backend initialisation

    A shallow embedding of [src/utils.py] (the traversal library imported
    by the hooks as [flex_model.traverse]),
    [src/flex_model/core/hook_function.py] and
    [src/flex_model/distributed/distributed_api.py].

    Python values are modelled by the inductive type [pyobj]: tensors,
    tuples, lists, [BaseModelOutputWithPast] instances and plain scalar
    values ([None], booleans, integers, strings).  Instances of the codec's
    own node classes are not layer outputs and are not part of [pyobj].
    Exceptions are values of [exn]; a computation that may raise returns a
    [result].

    Two things that the three files take from elsewhere are modelled as
    Python runs them: the constructor of [BaseModelOutputWithPast], of the
    transformers library, with the check it runs on its fields
    ([BaseModelOutputWithPast_new]); and the registration decorators of
    [utils.py], which return [None] and so leave the names of the
    decorated node classes bound to [None] ([TensorNode_eq]). *)

From stdpp Require Import gmap strings list.
From Stdlib Require Import ZArith Lia.

Set Default Proof Using "Type".
Set Warnings "-register-all".
Open Scope Z_scope.
Open Scope nat_scope.

(** ** Exceptions and results *)

Inductive exn : Type :=
| MissingLeafError            (* IndexError of [leaves[self.unpack_idx]] *)
| ShapeMismatchError          (* AssertionError of [start_shape == tensor.shape] *)
| PartialStateCorruptionError (* Exception: runtime functions only partially defined *)
| UnevenShardError            (* full dimension not divisible by the group size *)
| UnsupportedShardingError    (* more than one sharded axis *)
| TensorIsNoneError           (* AssertionError of [tensor is not None] *)
| OutputPtrIsNoneError        (* AssertionError of [output_ptr is not None] *)
| NoActiveBackendError        (* AssertionError of [_ACTIVE_BACKEND is not None] *)
| MeshAssertionError          (* AssertionError of the world-size product *)
| NoneNotCallableError        (* TypeError: NoneType object is not callable *)
| PopFromEmptyListError       (* IndexError of [leaves.pop()] *)
| TooManyArgumentsError       (* TypeError of the [BaseModelOutputWithPast] constructor *)
| KeyValueError               (* ValueError of that constructor: a mixed iterator *)
| IsInstanceTypeError         (* TypeError of [isinstance(other, None)] *)
| NoShapeAttributeError       (* AttributeError of [tensor.shape] *)
| CollectiveError             (* raised by the communication layer *)
| KeyError
| EmptyOrderError             (* IndexError of [order[0]] *)
| StoreError                  (* a reference to no node object; no Python counterpart *)
| NotImplementedError
| UserError (code : nat).     (* anything raised by user-supplied code *)

Inductive result (A : Type) : Type :=
| Ok (a : A)
| Err (e : exn).
Arguments Ok {A} a.
Arguments Err {A} e.

Global Instance result_ret : MRet result := λ A a, Ok a.
Global Instance result_bind : MBind result := λ A B k m,
  match m with
  | Ok a => k a
  | Err e => Err e
  end.

(** ** Python values *)

(** Values that the codec does not open. *)
Inductive scalar : Type :=
| SNone
| SBool (b : bool)
| SInt (z : Z)
| SStr (s : string).

(** A tensor: its [shape] and the elements of its storage in row-major
    order. *)
Record Tensor : Type := mkTensor { t_shape : list nat; t_data : list Z }.

Inductive pyobj : Type :=
| OTensor (t : Tensor)
| OTuple (items : list pyobj)
| OList (items : list pyobj)
| OBaseModelOutputWithPast
    (last_hidden_state past_key_values hidden_states attentions : pyobj)
| OScalar (s : scalar).

(** [type(x)] for objects and for nodes of a template. *)
Inductive pytype : Type :=
| TyTensor | TyTuple | TyList | TyBaseModelOutputWithPast
| TyNoneType | TyBool | TyInt | TyStr
| TyTupleNode | TyListNode | TyBaseModelOutputWithPastNode | TyTensorNode.

Global Instance scalar_eq_dec : EqDecision scalar.
Proof. solve_decision. Defined.
Global Instance Tensor_eq_dec : EqDecision Tensor.
Proof. solve_decision. Defined.
Global Instance pytype_eq_dec : EqDecision pytype.
Proof. solve_decision. Defined.

Definition scalar_type (s : scalar) : pytype :=
  match s with
  | SNone => TyNoneType
  | SBool _ => TyBool
  | SInt _ => TyInt
  | SStr _ => TyStr
  end.

Definition type_of (obj : pyobj) : pytype :=
  match obj with
  | OTensor _ => TyTensor
  | OTuple _ => TyTuple
  | OList _ => TyList
  | OBaseModelOutputWithPast _ _ _ _ => TyBaseModelOutputWithPast
  | OScalar s => scalar_type s
  end.

(** ** Nodes and the two registries *)

(** The registered subclasses of [InternalNode]. *)
Inductive internal_node_cls : Type :=
| TupleNode | ListNode | BaseModelOutputWithPastNode.

(** The registered subclasses of [LeafNode]. *)
Inductive leaf_node_cls : Type := TensorNode.

Global Instance internal_node_cls_eq_dec : EqDecision internal_node_cls.
Proof. solve_decision. Defined.

(** A template.  A scalar node is the scalar object itself. *)
Inductive node : Type :=
| NInternal (cls : internal_node_cls) (children : list node)
| NLeaf (val : list nat)
| NScalar (s : scalar).

(** [@register_internal_node_type(tuple)], [(list)],
    [(BaseModelOutputWithPast)]. *)
Definition _INTERNAL_NODE_TYPE_REGISTRY : list (pytype * internal_node_cls) :=
  [ (TyTuple, TupleNode); (TyList, ListNode);
    (TyBaseModelOutputWithPast, BaseModelOutputWithPastNode) ].

(** [@register_leaf_node_type(Tensor)]. *)
Definition _LEAF_NODE_TYPE_REGISTRY : list (pytype * leaf_node_cls) :=
  [ (TyTensor, TensorNode) ].

Definition registry_get {V} (reg : list (pytype * V)) (ty : pytype) : option V :=
  (λ hit, hit.2.2) <$> list_find (λ kv, kv.1 = ty) reg.

Definition is_leaf_obj (obj : pyobj) : bool :=
  bool_decide (is_Some (registry_get _LEAF_NODE_TYPE_REGISTRY (type_of obj))).

Definition is_internal_obj (obj : pyobj) : bool :=
  bool_decide (is_Some (registry_get _INTERNAL_NODE_TYPE_REGISTRY (type_of obj))).

Definition get_internal_node (obj : pyobj) : result internal_node_cls :=
  match registry_get _INTERNAL_NODE_TYPE_REGISTRY (type_of obj) with
  | Some cls => Ok cls
  | None => Err KeyError
  end.


(** ** [_flatten]

    While [_flatten] runs, node objects are shared: a fresh internal node
    is appended to [order] first and receives its children afterwards,
    through the reference held by the enclosing call.  The node objects
    therefore live in a store, [order] and [children] hold references, and
    the returned template is read off the store when the traversal ends.
    Scalar nodes are the scalar objects themselves. *)

Inductive noderef : Type :=
| RNode (l : nat)
| RScalar (s : scalar).

Inductive cell : Type :=
| CInternal (cls : internal_node_cls) (children : list noderef)
| CLeaf (val : list nat).

Record flat_state : Type := FlatState {
  fs_store : list cell;
  fs_order : list noderef;
  fs_leaves : list pyobj;
}.

(** [internal_node.children.append(r)] for the node object at [l]. *)
Definition children_append (l : nat) (r : noderef) (st : flat_state) : flat_state :=
  FlatState
    (alter (λ c, match c with
                 | CInternal cls rs => CInternal cls (rs ++ [r])
                 | CLeaf v => CLeaf v
                 end) l (fs_store st))
    (fs_order st) (fs_leaves st).

(** [for child in unvisited_children:
       internal_node.children.append(_dfs(child))] *)
Definition visit_children (_dfs : pyobj → flat_state → noderef * flat_state)
    (l : nat) : list pyobj → flat_state → flat_state :=
  fix go (unvisited_children : list pyobj) (st : flat_state) : flat_state :=
    match unvisited_children with
    | [] => st
    | child :: rest =>
        let '(r, st1) := _dfs child st in
        go rest (children_append l r st1)
    end.

(** [internal_node = get_internal_node(obj)(); order.append(internal_node)] *)
Definition new_internal (cls : internal_node_cls) (st : flat_state)
    : nat * flat_state :=
  let l := length (fs_store st) in
  (l, FlatState (fs_store st ++ [CInternal cls []])
                (fs_order st ++ [RNode l]) (fs_leaves st)).

Fixpoint _flatten_dfs (obj : pyobj) (st : flat_state) : noderef * flat_state :=
  match obj with
  | OTensor t =>
      (* leaf obj: [get_leaf_node(obj)(val=obj.shape)] *)
      let l := length (fs_store st) in
      (RNode l, FlatState (fs_store st ++ [CLeaf (t_shape t)])
                          (fs_order st ++ [RNode l])
                          (fs_leaves st ++ [obj]))
  | OTuple items =>
      (* [TupleNode.flatten]: the instance itself *)
      let '(l, st1) := new_internal TupleNode st in
      (RNode l, visit_children _flatten_dfs l items st1)
  | OList items =>
      (* [ListNode.flatten]: [tuple(instance)] *)
      let '(l, st1) := new_internal ListNode st in
      (RNode l, visit_children _flatten_dfs l items st1)
  | OBaseModelOutputWithPast last_hidden_state past_key_values
                             hidden_states attentions =>
      let '(l, st1) := new_internal BaseModelOutputWithPastNode st in
      let '(r1, st2) := _flatten_dfs last_hidden_state st1 in
      let '(r2, st3) := _flatten_dfs past_key_values (children_append l r1 st2) in
      let '(r3, st4) := _flatten_dfs hidden_states (children_append l r2 st3) in
      let '(r4, st5) := _flatten_dfs attentions (children_append l r3 st4) in
      (RNode l, children_append l r4 st5)
  | OScalar s =>
      (RScalar s, FlatState (fs_store st) (fs_order st ++ [RScalar s])
                            (fs_leaves st))
  end.

(** Reading a template off the store.  A node only refers to nodes created
    after it, so the cells are read from the last one backwards;
    [read_cells base cells] lists the templates of the cells at [base],
    [base + 1], ... *)
Definition read_child (base : nat) (later : list node) (r : noderef) : node :=
  match r with
  | RScalar s => NScalar s
  | RNode l => default (NScalar SNone) (later !! (l - S base))
  end.

Fixpoint read_cells (base : nat) (cells : list cell) : list node :=
  match cells with
  | [] => []
  | c :: rest =>
      let later := read_cells (S base) rest in
      match c with
      | CLeaf v => NLeaf v
      | CInternal cls rs => NInternal cls (read_child base later <$> rs)
      end :: later
  end.

Definition read_ref (store : list cell) (r : noderef) : result node :=
  match r with
  | RScalar s => Ok (NScalar s)
  | RNode l =>
      match read_cells 0 store !! l with
      | Some n => Ok n
      | None => Err StoreError
      end
  end.

Definition _flatten (root_obj : pyobj) : result (node * list pyobj) :=
  let '(_, st) := _flatten_dfs root_obj (FlatState [] [] []) in
  match fs_order st with
  | r :: _ => n ← read_ref (fs_store st) r; Ok (n, fs_leaves st)
  | [] => Err EmptyOrderError
  end.

(** The template and the leaves of an object, by recursion on the object:
    what [_flatten] computes (lemma [_flatten_eq] below). *)
Fixpoint node_of (obj : pyobj) : node :=
  match obj with
  | OTensor t => NLeaf (t_shape t)
  | OTuple items => NInternal TupleNode (node_of <$> items)
  | OList items => NInternal ListNode (node_of <$> items)
  | OBaseModelOutputWithPast a b c d =>
      NInternal BaseModelOutputWithPastNode
                [node_of a; node_of b; node_of c; node_of d]
  | OScalar s => NScalar s
  end.

Fixpoint leaves_of (obj : pyobj) : list pyobj :=
  match obj with
  | OTensor t => [obj]
  | OTuple items => concat (leaves_of <$> items)
  | OList items => concat (leaves_of <$> items)
  | OBaseModelOutputWithPast a b c d =>
      leaves_of a ++ leaves_of b ++ leaves_of c ++ leaves_of d
  | OScalar s => []
  end.

(** Structural induction on objects and on templates, with the induction
    hypothesis for every element of a container. *)
Section pyobj_induction.
Variable P : pyobj → Prop.
Hypothesis Htensor : ∀ t, P (OTensor t).
Hypothesis Htuple : ∀ items, Forall P items → P (OTuple items).
Hypothesis Hlist : ∀ items, Forall P items → P (OList items).
Hypothesis Hbmo : ∀ a b c d, P a → P b → P c → P d →
  P (OBaseModelOutputWithPast a b c d).
Hypothesis Hscalar : ∀ s, P (OScalar s).

Fixpoint pyobj_forall_ind (obj : pyobj) : P obj :=
  let fix all (items : list pyobj) : Forall P items :=
    match items with
    | [] => Forall_nil_2 P
    | x :: rest => Forall_cons_2 P x rest (pyobj_forall_ind x) (all rest)
    end in
  match obj with
  | OTensor t => Htensor t
  | OTuple items => Htuple items (all items)
  | OList items => Hlist items (all items)
  | OBaseModelOutputWithPast a b c d =>
      Hbmo a b c d (pyobj_forall_ind a) (pyobj_forall_ind b)
           (pyobj_forall_ind c) (pyobj_forall_ind d)
  | OScalar s => Hscalar s
  end.
End pyobj_induction.

Section node_induction.
Variable P : node → Prop.
Hypothesis Hinternal : ∀ cls children,
  Forall P children → P (NInternal cls children).
Hypothesis Hleaf : ∀ val, P (NLeaf val).
Hypothesis Hscalar : ∀ s, P (NScalar s).

Fixpoint node_forall_ind (n : node) : P n :=
  let fix all (children : list node) : Forall P children :=
    match children with
    | [] => Forall_nil_2 P
    | x :: rest => Forall_cons_2 P x rest (node_forall_ind x) (all rest)
    end in
  match n with
  | NInternal cls children => Hinternal cls children (all children)
  | NLeaf val => Hleaf val
  | NScalar s => Hscalar s
  end.
End node_induction.

(** ** [_unflatten] *)

(** [leaves.pop()]: the last element of the (reversed) list. *)
Definition list_pop (stack : list pyobj) : result (pyobj * list pyobj) :=
  match last stack with
  | Some x => Ok (x, take (length stack - 1) stack)
  | None => Err PopFromEmptyListError
  end.

(** *** The constructor of [BaseModelOutputWithPast]

    [BaseModelOutputWithPast] is a dataclass of the transformers library
    with the four fields [last_hidden_state], [past_key_values],
    [hidden_states] and [attentions], all defaulting to [None]; it is also
    an ordered dictionary holding the fields that are not [None].  After the
    fields have been assigned its constructor runs the check of its base
    class: when every field but the first is [None] and the first is not a
    tensor, an iterable first field is read as a sequence of key and value
    pairs, each of which assigns an attribute. *)

Definition is_none_obj (obj : pyobj) : bool :=
  match obj with OScalar SNone => true | _ => false end.

Definition is_tensor (obj : pyobj) : bool :=
  match obj with OTensor _ => true | _ => false end.

Record model_output_fields : Type := Fields
  { f_last_hidden_state : pyobj;
    f_past_key_values : pyobj;
    f_hidden_states : pyobj;
    f_attentions : pyobj }.

Definition of_fields (f : model_output_fields) : pyobj :=
  OBaseModelOutputWithPast (f_last_hidden_state f) (f_past_key_values f)
    (f_hidden_states f) (f_attentions f).

(** [setattr(self, key, value)] as the four fields see it; another key
    becomes an attribute of its own and leaves the fields alone. *)
Definition set_field (key : string) (value : pyobj) (f : model_output_fields)
    : model_output_fields :=
  if bool_decide (key = "last_hidden_state") then
    Fields value (f_past_key_values f) (f_hidden_states f) (f_attentions f)
  else if bool_decide (key = "past_key_values") then
    Fields (f_last_hidden_state f) value (f_hidden_states f) (f_attentions f)
  else if bool_decide (key = "hidden_states") then
    Fields (f_last_hidden_state f) (f_past_key_values f) value (f_attentions f)
  else if bool_decide (key = "attentions") then
    Fields (f_last_hidden_state f) (f_past_key_values f) (f_hidden_states f) value
  else f.

(** The test of the loop read the other way round: [element] is a list or
    a tuple, of length two, whose first component is a string. *)
Definition as_key_value (element : pyobj) : option (string * pyobj) :=
  match element with
  | OTuple [OScalar (SStr key); value] => Some (key, value)
  | OList [OScalar (SStr key); value] => Some (key, value)
  | _ => None
  end.

(** [first_field.items()] of a dictionary: the fields that are not [None]. *)
Definition model_output_items (a b c d : pyobj) : list pyobj :=
  omap (λ entry : string * pyobj,
          if is_none_obj entry.2 then None
          else Some (OTuple [OScalar (SStr entry.1); entry.2]))
       [("last_hidden_state", a); ("past_key_values", b);
        ("hidden_states", c); ("attentions", d)].

(** [first_field.items()] for a dictionary and [iter(first_field)]
    otherwise; [None] where [iter] raises [TypeError].  A string iterates
    over its characters. *)
Definition iterate_first_field (first_field : pyobj) : option (list pyobj) :=
  match first_field with
  | OTuple items | OList items => Some items
  | OBaseModelOutputWithPast a b c d => Some (model_output_items a b c d)
  | OScalar (SStr s) =>
      Some ((λ ch, OScalar (SStr (String ch EmptyString)))
              <$> String.list_ascii_of_string s)
  | OScalar _ | OTensor _ => None
  end.

(** The loop [for idx, element in enumerate(iterator)]: an element that is
    no pair restores the first field when it comes first, and raises
    [ValueError] later; a pair assigns its attribute. *)
Fixpoint assign_key_values (idx : nat) (elements : list pyobj)
    (first_field : pyobj) (f : model_output_fields)
    : result model_output_fields :=
  match elements with
  | [] => Ok f
  | element :: rest =>
      match as_key_value element with
      | None =>
          if bool_decide (idx = 0)
          then Ok (set_field "last_hidden_state" first_field f)
          else Err KeyValueError
      | Some (key, value) =>
          assign_key_values (S idx) rest first_field (set_field key value f)
      end
  end.

(** The constructor called with its four fields.  The first field is reset
    to [None] before the loop runs. *)
Definition BaseModelOutputWithPast_new (a b c d : pyobj) : result pyobj :=
  let other_fields_are_none :=
    is_none_obj b && is_none_obj c && is_none_obj d in
  if other_fields_are_none && negb (is_tensor a) then
    match iterate_first_field a with
    | Some elements =>
        let none := OScalar SNone in
        f ← assign_key_values 0 elements a (Fields none b c d);
        Ok (of_fields f)
    | None => Ok (OBaseModelOutputWithPast a b c d)
    end
  else Ok (OBaseModelOutputWithPast a b c d).

(** The [unflatten] method of each internal node class.  The last one
    passes the children as positional arguments; the fields left out
    default to [None]. *)
Definition node_unflatten (cls : internal_node_cls) (children : list pyobj)
    : result pyobj :=
  match cls with
  | TupleNode => Ok (OTuple children)
  | ListNode => Ok (OList children)
  | BaseModelOutputWithPastNode =>
      let none := OScalar SNone in
      match children with
      | [] => BaseModelOutputWithPast_new none none none none
      | [a] => BaseModelOutputWithPast_new a none none none
      | [a; b] => BaseModelOutputWithPast_new a b none none
      | [a; b; c] => BaseModelOutputWithPast_new a b c none
      | [a; b; c; d] => BaseModelOutputWithPast_new a b c d
      | _ => Err TooManyArgumentsError
      end
  end.

(** The generator [(_dfs(child) for child in node.children)], consumed from
    left to right by every [unflatten] method. *)
Definition unflatten_children
    (_dfs : node → list pyobj → result (pyobj * list pyobj))
    : list node → list pyobj → result (list pyobj * list pyobj) :=
  fix go (children : list node) (stack : list pyobj) :=
    match children with
    | [] => Ok ([], stack)
    | child :: rest =>
        '(obj, stack1) ← _dfs child stack;
        '(objs, stack2) ← go rest stack1;
        Ok (obj :: objs, stack2)
    end.

Fixpoint _unflatten_dfs (n : node) (stack : list pyobj)
    : result (pyobj * list pyobj) :=
  match n with
  | NLeaf _ => list_pop stack
  | NInternal cls children =>
      '(objs, stack1) ← unflatten_children _unflatten_dfs children stack;
      obj ← node_unflatten cls objs;
      Ok (obj, stack1)
  | NScalar s => Ok (OScalar s, stack)
  end.

Definition _unflatten (root_node : node) (leaves : list pyobj) : result pyobj :=
  '(obj, _) ← _unflatten_dfs root_node (reverse leaves);
  Ok obj.

(** ** Equality of templates *)

Definition node_type (n : node) : pytype :=
  match n with
  | NInternal TupleNode _ => TyTupleNode
  | NInternal ListNode _ => TyListNode
  | NInternal BaseModelOutputWithPastNode _ => TyBaseModelOutputWithPastNode
  | NLeaf _ => TyTensorNode
  | NScalar s => scalar_type s
  end.

(** Python's [==] on scalar objects; [True == 1] and [False == 0]. *)
Definition scalar_eq (a b : scalar) : bool :=
  match a, b with
  | SNone, SNone => true
  | SBool x, SBool y => bool_decide (x = y)
  | SInt x, SInt y => bool_decide (x = y)
  | SBool x, SInt y => bool_decide ((if x then 1 else 0)%Z = y)
  | SInt x, SBool y => bool_decide (x = (if y then 1 else 0)%Z)
  | SStr x, SStr y => bool_decide (x = y)
  | _, _ => false
  end.

(** The local [_dfs] of [InternalNode.__eq__]. *)
Fixpoint InternalNode_eq_dfs (node1 node2 : node) {struct node1} : bool :=
  if negb (bool_decide (node_type node1 = node_type node2)) then false
  else match node1, node2 with
       | NLeaf _, NLeaf _ => true
       | NInternal _ children1, NInternal _ children2 =>
           if negb (bool_decide (length children1 = length children2))
           then false
           else forallb id (zip_with InternalNode_eq_dfs children1 children2)
       | NScalar a, NScalar b => scalar_eq a b
       | _, _ => false (* not reached: the two types are equal *)
       end.

(** [TensorNode.__eq__].  The decorator [register_leaf_node_type(Tensor)]
    stores the class in the registry and returns the result of its inner
    function, which is [None]: the module binds the name [TensorNode] to
    [None], and the test [isinstance(other, TensorNode)] that opens the
    method raises [TypeError] whatever [other] is.  The comparison
    [self.val == other.val] behind it is never reached. *)
Definition TensorNode_eq (val : list nat) (other : node) : result bool :=
  Err IsInstanceTypeError.

(** [a == b] on templates: the [__eq__] of the left operand; a scalar on
    the left defers to the reflected method of a node on the right. *)
Definition node_eq (a b : node) : result bool :=
  match a with
  | NInternal _ _ => Ok (InternalNode_eq_dfs a b)
  | NLeaf val => TensorNode_eq val b
  | NScalar s =>
      match b with
      | NScalar s' => Ok (scalar_eq s s')
      | NInternal _ _ => Ok (InternalNode_eq_dfs b a)
      | NLeaf val => TensorNode_eq val a
      end
  end.

(** Equality of templates as the specification words it: the same node type
    at every position, the same number of children, equal children; scalars
    by value; leaves always equal, their content never compared. *)
Fixpoint structurally_equal (a b : node) {struct a} : bool :=
  match a, b with
  | NInternal cls1 children1, NInternal cls2 children2 =>
      bool_decide (cls1 = cls2)
      && bool_decide (length children1 = length children2)
      && forallb id (zip_with structurally_equal children1 children2)
  | NLeaf _, NLeaf _ => true
  | NScalar s1, NScalar s2 =>
      bool_decide (scalar_type s1 = scalar_type s2) && scalar_eq s1 s2
  | _, _ => false
  end.

(** The number of leaf nodes of a template. *)
Fixpoint count_leaf_nodes (n : node) : nat :=
  match n with
  | NInternal _ children => sum_list (count_leaf_nodes <$> children)
  | NLeaf _ => 1
  | NScalar _ => 0
  end.

(** ** Python list indexing and slicing with a signed index *)

Definition py_index {A} (l : list A) (i : Z) : option A :=
  let n := Z.of_nat (length l) in
  if bool_decide (0 ≤ i < n)%Z then l !! Z.to_nat i
  else if bool_decide (- n ≤ i < 0)%Z then l !! Z.to_nat (n + i)
  else None.

(** A slice bound: negative bounds count from the end, and both are
    clipped to the list. *)
Definition py_bound (n : nat) (i : Z) : nat :=
  if bool_decide (i < 0)%Z then Z.to_nat (Z.max 0 (Z.of_nat n + i))
  else Z.to_nat (Z.min i (Z.of_nat n)).

(** [l[:i]] and [l[i:]]. *)
Definition py_slice_to {A} (l : list A) (i : Z) : list A :=
  take (py_bound (length l) i) l.
Definition py_slice_from {A} (l : list A) (i : Z) : list A :=
  drop (py_bound (length l) i) l.

(** ** The distributed backend ([distributed_api.py]) *)

Record GPUDeviceMesh : Type := DeviceMesh {
  mesh_world_size : Z;
  mesh_tp_size : Z;
  mesh_pp_size : Z;
  mesh_dp_size : Z;
}.

(** Modelled from the spec: [GPUDeviceMesh.build] of
    [flex_model.distributed.backends], whose source is not available.
    It validates [world_size == tp * pp * dp]; the tables of peer ranks it
    derives are not needed here. *)
Definition GPUDeviceMesh_build (world_size tp pp dp : Z) : result GPUDeviceMesh :=
  if bool_decide (world_size = tp * pp * dp)%Z
  then Ok (DeviceMesh world_size tp pp dp)
  else Err MeshAssertionError.

Inductive backend_cls : Type :=
| TorchDistributedBackend | AccelerateDistributedBackend.

(** Modelled from the spec: the backend classes of
    [flex_model.distributed.backends], whose source is not available.  A
    backend instance: its class, the mesh it was built on, and what its
    queries [activation_parallel_is_initialized] and
    [in_pipeline_parallel_group] answer. *)
Record DistributedBackend : Type := Backend {
  backend_impl : backend_cls;
  backend_mesh : GPUDeviceMesh;
  backend_act_initialized : bool;
  backend_in_pp_group : bool;
}.

(** [accelerate.DistributedType]. *)
Inductive DistributedType : Type :=
| NO | MULTI_GPU | DEEPSPEED | FSDP | MEGATRON_LM.

(** Modelled from the spec: the tensor-parallel group as the collectives
    of [flex_model.distributed] see it: its size, the local rank, whether
    the membership guard lets this process issue collectives, and the
    all-gather primitive, which returns the tensors contributed by the
    ranks of the group, in rank order. *)
Record tp_group : Type := TpGroup {
  tp_world_size : nat;
  tp_rank : nat;
  tp_member : bool;
  all_gather : Tensor → list Tensor;
}.

(** The process-wide state the code reads and writes. *)
Record runtime : Type := Runtime {
  torch_distributed_is_initialized : bool;
  partial_state_distributed_type : DistributedType;
  _ACTIVE_BACKEND : option DistributedBackend;
  rt_tp : tp_group;
}.

Definition set_active_backend (b : option DistributedBackend) (rt : runtime)
    : runtime :=
  Runtime (torch_distributed_is_initialized rt)
          (partial_state_distributed_type rt) b (rt_tp rt).

Definition _parse_backend (rt : runtime) : result backend_cls :=
  let hf_distributed :=
    match partial_state_distributed_type rt with
    | DEEPSPEED | FSDP | MEGATRON_LM => true
    | _ => false
    end in
  if torch_distributed_is_initialized rt && hf_distributed
  then Ok AccelerateDistributedBackend
  else if torch_distributed_is_initialized rt && negb hf_distributed
          || negb (torch_distributed_is_initialized rt)
  then Ok TorchDistributedBackend
  else Err NotImplementedError.

(** [_ACTIVE_BACKEND = backend] *)
Definition _expose_distributed_backend (backend : DistributedBackend)
    (rt : runtime) : runtime :=
  set_active_backend (Some backend) rt.

Definition initialize_distributed_backend
    (world_size tensor_parallel_size pipeline_parallel_size
       data_parallel_size : Z) (rt : runtime) : result unit * runtime :=
  if negb (bool_decide
             (world_size = tensor_parallel_size * pipeline_parallel_size
                           * data_parallel_size)%Z)
  then (Err MeshAssertionError, rt)
  else
    match _parse_backend rt with
    | Err e => (Err e, rt)
    | Ok cls =>
        match GPUDeviceMesh_build world_size tensor_parallel_size
                pipeline_parallel_size data_parallel_size with
        | Err e => (Err e, rt)
        | Ok device_mesh =>
            let backend := Backend cls device_mesh false false in
            (Ok (), _expose_distributed_backend backend rt)
        end
    end.

Definition distributed_backend_is_initialized (rt : runtime) : bool :=
  bool_decide (is_Some (_ACTIVE_BACKEND rt)).

Definition activation_parallel_is_initialized (rt : runtime) : result bool :=
  match _ACTIVE_BACKEND rt with
  | Some b => Ok (backend_act_initialized b)
  | None => Err NoActiveBackendError
  end.

Definition in_pipeline_parallel_group (rt : runtime) : result bool :=
  match _ACTIVE_BACKEND rt with
  | Some b => Ok (backend_in_pp_group b)
  | None => Err NoActiveBackendError
  end.

(** ** The hook function ([hook_function.py]) *)

(** What an offload stores: the detached tensor, on the host for
    [.to("cpu")], on the device for [.clone()]. *)
Inductive device : Type := CPU | GPU.
Record captured : Type := Captured { cap_device : device; cap_tensor : Tensor }.

Record SharedState : Type := Shared {
  save_ctx : gmap string pyobj;
  modules : list string;
  offload_mode : string;
  output_ptr : option (gmap string (list captured));
}.

Record world : Type := World {
  w_shared : SharedState;
  w_runtime : runtime;
}.

Definition set_output_ptr (p : gmap string (list captured)) (w : world) : world :=
  World (Shared (save_ctx (w_shared w)) (modules (w_shared w))
                (offload_mode (w_shared w)) (Some p))
        (w_runtime w).

Definition set_save_ctx (c : gmap string pyobj) (w : world) : world :=
  World (Shared c (modules (w_shared w)) (offload_mode (w_shared w))
                (output_ptr (w_shared w)))
        (w_runtime w).

(** The module handed to the editing function; [None] for tensor hooks. *)
Definition module_handle : Type := option string.

Definition transfer_fn : Type := Tensor → result Tensor.
Definition editing_fn : Type :=
  module_handle → Tensor → gmap string pyobj → list string
  → result Tensor * gmap string pyobj.
Definition offload_fn : Type := Tensor → world → result unit * world.

Record HookFunction : Type := Hook {
  module_name : string;
  expected_shape : list (option nat);
  editing_function : editing_fn;
  unpack_idx : Z;
  _collect : option transfer_fn;
  _disperse : option transfer_fn;
  _edit : option editing_fn;
  _offload : option offload_fn;
}.

Definition _parse_editing_function (edit_function : editing_fn) : editing_fn :=
  edit_function.

Definition default_editing_function : editing_fn :=
  λ current_module inputs save_ctx modules, (Ok inputs, save_ctx).

(** [HookFunction.__init__] *)
Definition HookFunction_init (module_name : string)
    (expected_shape : list (option nat)) (editing_function : option editing_fn)
    (unpack_idx : Z) : HookFunction :=
  Hook module_name expected_shape
       (match editing_function with
        | None => default_editing_function
        | Some f => f
        end)
       unpack_idx None None None None.

(** *** Activation transfer *)

Definition prod_list (l : list nat) : nat := foldr Nat.mul 1 l.

(** Modelled from the spec: the concatenation of shards along an axis
    used by collect.  In row-major storage: for each index of the outer
    dimensions in turn, the rows of the shards one after the other. *)
Fixpoint cat_rows (outer : nat) (rows : list nat) (datas : list (list Z))
    : list Z :=
  match outer with
  | 0 => []
  | S outer' =>
      concat (zip_with take rows datas)
      ++ cat_rows outer' rows (zip_with drop rows datas)
  end.

(** Modelled from the spec: shards concatenated in rank order along
    [axis]; they must agree on every other dimension. *)
Definition tensor_cat (axis : nat) (shards : list Tensor) : result Tensor :=
  match shards with
  | [] => Err CollectiveError
  | t0 :: _ =>
      if bool_decide (axis < length (t_shape t0)
                      ∧ Forall (λ t, <[axis:=0]> (t_shape t)
                                     = <[axis:=0]> (t_shape t0)) shards)
      then Ok (mkTensor
                 (<[axis:=sum_list ((λ t, default 0 (t_shape t !! axis))
                                      <$> shards)]> (t_shape t0))
                 (cat_rows (prod_list (take axis (t_shape t0)))
                           ((λ t, prod_list (drop axis (t_shape t))) <$> shards)
                           (t_data <$> shards)))
      else Err CollectiveError
  end.

(** Modelled from the spec: the slice along an axis used by disperse.
    For each index of the outer dimensions, [len] elements from offset
    [start] of a row of [row] elements. *)
Fixpoint narrow_rows (outer row start len : nat) (data : list Z) : list Z :=
  match outer with
  | 0 => []
  | S outer' =>
      take len (drop start data)
      ++ narrow_rows outer' row start len (drop row data)
  end.

(** Modelled from the spec: the [rank]-th of [size] contiguous, equal
    pieces along [axis]; a dimension that [size] does not divide is the
    uneven-shard error. *)
Definition tensor_piece (axis size rank : nat) (t : Tensor) : result Tensor :=
  match t_shape t !! axis with
  | None => Err CollectiveError
  | Some full =>
      if bool_decide (size ≠ 0 ∧ full `mod` size = 0)
      then
        let piece := full `div` size in
        let inner := prod_list (drop (S axis) (t_shape t)) in
        Ok (mkTensor (<[axis:=piece]> (t_shape t))
                   (narrow_rows (prod_list (take axis (t_shape t)))
                                (full * inner) (rank * piece * inner)
                                (piece * inner) (t_data t)))
      else Err UnevenShardError
  end.

(** Modelled from the spec: the identity used when no axis is sharded. *)
Definition unity : transfer_fn := λ t, Ok t.

(** Modelled from the spec: collect, for a sharded [axis]. *)
Definition all_gather_tensor_parallel (g : tp_group) (axis : nat) : transfer_fn :=
  λ t, if tp_member g then tensor_cat axis (all_gather g t) else Ok t.

(** Modelled from the spec: disperse, for a sharded [axis]. *)
Definition scatter_tensor_parallel (g : tp_group) (axis : nat) : transfer_fn :=
  λ t, if tp_member g then tensor_piece axis (tp_world_size g) (tp_rank g) t
       else Ok t.

(** Modelled from the spec: the axes at which a concrete entry of
    [expected] differs from the observed shape. *)
Fixpoint differing_axes (i : nat) (shape : list nat)
    (expected : list (option nat)) : list nat :=
  match shape, expected with
  | d :: shape', e :: expected' =>
      match e with
      | Some n => if bool_decide (n = d) then [] else [i]
      | None => []
      end ++ differing_axes (S i) shape' expected'
  | _, _ => []
  end.

(** Modelled from the spec: [dist.parse_collect_and_distribute_from_tensor]
    of [flex_model.distributed], whose source is not available.  No
    differing axis: both functions are the identity.  One differing axis:
    collect all-gathers along it over the tensor-parallel group and
    concatenates the shards in rank order; disperse slices the full tensor
    along it into as many equal pieces as the group has ranks and keeps the
    piece of the local rank.  A process that the membership guard keeps out
    of the collective passes its tensor on unchanged.  More than one
    differing axis is not supported. *)
Definition parse_collect_and_distribute_from_tensor (g : tp_group)
    (observed : Tensor) (expected : list (option nat))
    : result (transfer_fn * transfer_fn) :=
  match differing_axes 0 (t_shape observed) expected with
  | [] => Ok (unity, unity)
  | [axis] => Ok (all_gather_tensor_parallel g axis,
                  scatter_tensor_parallel g axis)
  | _ => Err UnsupportedShardingError
  end.

(** *** The hook's state monad: the hook object and the world it shares *)

Definition hstate : Type := HookFunction * world.
Definition M (A : Type) : Type := hstate → result A * hstate.

Definition ret {A} (a : A) : M A := λ s, (Ok a, s).
Definition raise {A} (e : exn) : M A := λ s, (Err e, s).
Definition bind {A B} (m : M A) (k : A → M B) : M B :=
  λ s, match m s with
       | (Ok a, s') => k a s'
       | (Err e, s') => (Err e, s')
       end.
Definition lift {A} (r : result A) : M A := λ s, (r, s).
Definition get_self : M HookFunction := λ s, (Ok s.1, s).
Definition get_world : M world := λ s, (Ok s.2, s).
Definition on_world {A} (f : world → result A * world) : M A :=
  λ s, let '(r, w) := f s.2 in (r, (s.1, w)).
Definition on_self (f : HookFunction → HookFunction) : M unit :=
  λ s, (Ok (), (f s.1, s.2)).

Notation "x <- m ;; k" := (bind m (λ x, k))
  (at level 100, m at next level, right associativity).

(** *** Offloading *)

(** [not using_torch_dist() or (using_act_dist() and in_pp_group())] *)
Definition offload_guard (rt : runtime) : result bool :=
  if negb (torch_distributed_is_initialized rt) then Ok true
  else
    act ← activation_parallel_is_initialized rt;
    if act : bool then in_pipeline_parallel_group rt else Ok false.

(** The list under [name] is appended to when [output_ptr.get(name, False)]
    is true, that is when it is there and not empty. *)
Definition sink_append (name : string) (x : captured)
    (p : gmap string (list captured)) : gmap string (list captured) :=
  match p !! name with
  | Some (y :: ys) => <[name:=(y :: ys) ++ [x]]> p
  | _ => <[name:=[x]]> p
  end.

Definition offload_with (capture : Tensor → captured) (name : string)
    : offload_fn :=
  λ activation w,
    match output_ptr (w_shared w) with
    | None => (Err OutputPtrIsNoneError, w)
    | Some p =>
        match offload_guard (w_runtime w) with
        | Err e => (Err e, w)
        | Ok true => (Ok (), set_output_ptr (sink_append name (capture activation) p) w)
        | Ok false => (Ok (), w)
        end
    end.

(** [activation.detach().to("cpu", non_blocking=True)]: the entry holds
    the activation as it is when the call is made.  For an activation that
    is already on the CPU the stored tensor shares its storage, so that a
    later write into the activation in place, by an editing function for
    instance, would show in the entry.  The tensors of this development
    are values: such writes are outside it, and what is proved of an entry
    of CPU mode is about the calls that store it, not about what an edit
    in place makes of it afterwards. *)
Definition _offload_tensor_to_cpu (self : HookFunction) : offload_fn :=
  offload_with (Captured CPU) (module_name self).

(** [activation.detach().clone()]: a copy of the activation. *)
Definition _offload_tensor_to_gpu (self : HookFunction) : offload_fn :=
  offload_with (Captured GPU) (module_name self).

Definition _concretize_offload_function (self : HookFunction) (w : world)
    : result offload_fn :=
  let mode := offload_mode (w_shared w) in
  if bool_decide (mode = "CPU") then Ok (_offload_tensor_to_cpu self)
  else if bool_decide (mode = "GPU") then Ok (_offload_tensor_to_gpu self)
  else Err KeyError.

Definition _concretize_editing_function (self : HookFunction) : editing_fn :=
  _parse_editing_function (editing_function self).

(** *** The tensor pipeline *)

Definition set_transfer (collect disperse : transfer_fn) (self : HookFunction)
    : HookFunction :=
  Hook (module_name self) (expected_shape self) (editing_function self)
       (unpack_idx self) (Some collect) (Some disperse) (_edit self)
       (_offload self).

Definition set_edit (edit : editing_fn) (self : HookFunction) : HookFunction :=
  Hook (module_name self) (expected_shape self) (editing_function self)
       (unpack_idx self) (_collect self) (_disperse self) (Some edit)
       (_offload self).

Definition set_offload (offload : offload_fn) (self : HookFunction)
    : HookFunction :=
  Hook (module_name self) (expected_shape self) (editing_function self)
       (unpack_idx self) (_collect self) (_disperse self) (_edit self)
       (Some offload).

Definition _concretize_functions (tensor : Tensor) : M unit :=
  self <- get_self ;;
  w <- get_world ;;
  fns <- lift (parse_collect_and_distribute_from_tensor
                 (rt_tp (w_runtime w)) tensor (expected_shape self)) ;;
  _ <- on_self (set_transfer fns.1 fns.2) ;;
  _ <- on_self (set_edit (_concretize_editing_function self)) ;;
  offload <- lift (_concretize_offload_function self w) ;;
  on_self (set_offload offload).

Definition is_None {A} (fn : option A) : bool :=
  match fn with None => true | Some _ => false end.

(** Calling a runtime function held in a field; calling [None] raises. *)
Definition call_transfer (fn : option transfer_fn) (tensor : Tensor) : M Tensor :=
  match fn with
  | Some f => lift (f tensor)
  | None => raise NoneNotCallableError
  end.

Definition call_offload (fn : option offload_fn) (tensor : Tensor) : M unit :=
  match fn with
  | Some f => on_world (f tensor)
  | None => raise NoneNotCallableError
  end.

Definition call_edit (fn : option editing_fn) (module : module_handle)
    (tensor : Tensor) : M Tensor :=
  match fn with
  | Some f =>
      on_world (λ w,
        let '(r, ctx) := f module tensor (save_ctx (w_shared w))
                           (modules (w_shared w)) in
        (r, set_save_ctx ctx w))
  | None => raise NoneNotCallableError
  end.

(** [_template_handle_tensor], in its three parts: the check of the four
    runtime functions, the four calls, and the final assertion on shapes. *)
Definition check_runtime_functions (tensor : Tensor) : M unit :=
  self <- get_self ;;
  (* [fn is None for fn in fns_to_check] *)
  let fns_are_undefined :=
    [ is_None (_collect self); is_None (_disperse self);
      is_None (_edit self); is_None (_offload self) ] in
  if forallb id fns_are_undefined then _concretize_functions tensor
  else if negb (forallb id fns_are_undefined) then ret ()
  else raise PartialStateCorruptionError.

Definition collect_offload_edit_disperse (module : module_handle)
    (tensor : Tensor) : M Tensor :=
  self <- get_self ;;
  tensor <- call_transfer (_collect self) tensor ;;
  _ <- call_offload (_offload self) tensor ;;
  tensor <- call_edit (_edit self) module tensor ;;
  call_transfer (_disperse self) tensor.

Definition _template_handle_tensor (module : module_handle) (tensor : Tensor)
    : M Tensor :=
  let start_shape := t_shape tensor in
  _ <- check_runtime_functions tensor ;;
  tensor <- collect_offload_edit_disperse module tensor ;;
  if bool_decide (start_shape = t_shape tensor) then ret tensor
  else raise ShapeMismatchError.

(** *** Layer outputs *)

(** [flatten] and [unflatten] of [flex_model.traverse]. *)
Definition flatten := _flatten.
Definition unflatten := _unflatten.

Definition _unpack_layer_outputs (self : HookFunction) (outputs : pyobj)
    : result (pyobj * (pyobj → result pyobj)) :=
  '(treedef, leaves) ← flatten outputs;
  let left_leaves := py_slice_to leaves (unpack_idx self) in
  match py_index leaves (unpack_idx self) with
  | None => Err MissingLeafError
  | Some tensor =>
      let right_leaves := py_slice_from leaves (unpack_idx self + 1) in
      if is_none_obj tensor then Err TensorIsNoneError
      else
        let _repack := λ _edited_tensor,
          unflatten treedef (left_leaves ++ [_edited_tensor] ++ right_leaves) in
        Ok (tensor, _repack)
  end.

Definition _template_handle_layer_outputs (module : module_handle)
    (inputs_or_outputs : pyobj) : M pyobj :=
  self <- get_self ;;
  unpacked <- lift (_unpack_layer_outputs self inputs_or_outputs) ;;
  let '(tensor, repack_fn) := unpacked in
  tensor <- match tensor with
            | OTensor t => ret t
            | _ => raise NoShapeAttributeError
            end ;;
  tensor <- _template_handle_tensor module tensor ;;
  lift (repack_fn (OTensor tensor)).

(** [n] calls of a concretized offload function, one tensor after the
    other. *)
Fixpoint offload_all (offload : offload_fn) (tensors : list Tensor) (w : world)
    : result unit * world :=
  match tensors with
  | [] => (Ok (), w)
  | t :: rest =>
      match offload t w with
      | (Ok _, w') => offload_all offload rest w'
      | (Err e, w') => (Err e, w')
      end
  end.

(** The entry of the output sink for a module; no entry reads as the empty
    list. *)
Definition sink_entry (name : string) (w : world) : list captured :=
  match output_ptr (w_shared w) with
  | Some p => default [] (p !! name)
  | None => []
  end.

(** ** Auxiliary notions for the proofs *)

(** In a list [ns] of templates read from index [base] of the store, the
    reference [r] denotes the template [n]. *)
Definition reads (base : nat) (r : noderef) (ns : list node) (n : node) : Prop :=
  match r with
  | RScalar s => n = NScalar s
  | RNode l => base ≤ l ∧ ns !! (l - base) = Some n
  end.

(** What one call of [_flatten_dfs] on [obj] does to the traversal state:
    new cells after the old ones, the returned reference first among the new
    entries of [order], the leaves of [obj] after the old leaves; and the
    new cells read as the template of [obj], whatever follows them. *)
Definition dfs_ok (obj : pyobj) : Prop :=
  ∀ st, ∃ r new_cells new_order,
    _flatten_dfs obj st
    = (r, FlatState (fs_store st ++ new_cells)
                    (fs_order st ++ r :: new_order)
                    (fs_leaves st ++ leaves_of obj))
    ∧ ∀ rest, ∃ ns,
        length ns = length new_cells
        ∧ read_cells (length (fs_store st)) (new_cells ++ rest)
          = ns ++ read_cells (length (fs_store st) + length new_cells) rest
        ∧ reads (length (fs_store st)) r ns (node_of obj).

(** A leaf and its replacement: tensors of one shape. *)
Definition same_shape_tensor (old new : pyobj) : Prop :=
  ∃ t t', old = OTensor t ∧ new = OTensor t' ∧ t_shape t = t_shape t'.

(** From the template of [c] and the leaves [ls], [_unflatten_dfs] returns
    [y], an object with the template of [c] and the leaves [ls]. *)
Definition rebuilds (c y : pyobj) (ls : list pyobj) : Prop :=
  (∀ more, _unflatten_dfs (node_of c) (reverse (ls ++ more))
           = Ok (y, reverse more))
  ∧ node_of y = node_of c
  ∧ leaves_of y = ls.

(** Every [BaseModelOutputWithPast] in the object holds a tensor as its
    [last_hidden_state] or has another field that is not [None]: the
    objects whose model outputs the constructor stores as they are given
    (lemma [BaseModelOutputWithPast_new_plain] below). *)
Fixpoint model_outputs_plain (obj : pyobj) : bool :=
  match obj with
  | OTensor _ => true
  | OTuple items => forallb model_outputs_plain items
  | OList items => forallb model_outputs_plain items
  | OBaseModelOutputWithPast a b c d =>
      (is_tensor a || negb (is_none_obj b && is_none_obj c && is_none_obj d))
      && model_outputs_plain a && model_outputs_plain b
      && model_outputs_plain c && model_outputs_plain d
  | OScalar _ => true
  end.

(** No node of a [BaseModelOutputWithPast] anywhere in the template. *)
Fixpoint no_model_output_node (n : node) : bool :=
  match n with
  | NInternal BaseModelOutputWithPastNode _ => false
  | NInternal _ children => forallb no_model_output_node children
  | NLeaf _ => true
  | NScalar _ => true
  end.

(** The position that a signed index denotes in a list of [n] elements. *)
Definition py_position (n : nat) (i : Z) : nat :=
  if bool_decide (i < 0)%Z then Z.to_nat (Z.of_nat n + i) else Z.to_nat i.

(** The storage of a tensor has as many elements as its shape says. *)
Definition well_formed (t : Tensor) : Prop :=
  length (t_data t) = prod_list (t_shape t).

(** [t] is a valid shard along [axis] for the group [g]: the axis exists,
    and, when this process takes part in the collectives, the all-gather
    returns one well-formed shard of the shape of [t] for each rank of the
    group, the one at the local rank being [t] itself. *)
Definition valid_shard (g : tp_group) (axis : nat) (t : Tensor) : Prop :=
  well_formed t
  ∧ axis < length (t_shape t)
  ∧ (tp_member g = true →
     tp_rank g < tp_world_size g
     ∧ length (all_gather g t) = tp_world_size g
     ∧ all_gather g t !! tp_rank g = Some t
     ∧ Forall (λ shard, t_shape shard = t_shape t ∧ well_formed shard)
              (all_gather g t)).

(** The state of a hook with the default editing function once its
    runtime functions are set for the differing axes [axes], in a world
    where offloading can run. *)
Definition identity_pipeline_ready (axes : list nat) (s : hstate) : Prop :=
  let g := rt_tp (w_runtime s.2) in
  match axes with
  | [] => _collect s.1 = Some unity ∧ _disperse s.1 = Some unity
  | [axis] => _collect s.1 = Some (all_gather_tensor_parallel g axis)
              ∧ _disperse s.1 = Some (scatter_tensor_parallel g axis)
  | _ => False
  end
  ∧ _edit s.1 = Some default_editing_function
  ∧ (∃ dev, _offload s.1 = Some (offload_with (Captured dev) (module_name s.1)))
  ∧ is_Some (output_ptr (w_shared s.2))
  ∧ (∃ b, offload_guard (w_runtime s.2) = Ok b).

(** ** Concrete inputs for the instances at the end of the file *)

Module Example.
(** A process without a distributed runtime. *)
Definition single_process : runtime :=
  Runtime false NO None (TpGroup 1 0 true (λ t, [t])).

Definition session : world :=
  World (Shared ∅ [] "CPU" (Some ∅)) single_process.

Definition hook : HookFunction :=
  HookFunction_init "layers.0" [None; None] None (-1).

Definition ta : Tensor := mkTensor [2; 2] [1; 2; 3; 4]%Z.
Definition tb : Tensor := mkTensor [2; 2] [5; 6; 7; 8]%Z.

(** Layer outputs with two tensors and a [None] field. *)
Definition outputs : pyobj :=
  OTuple [OTensor ta; OScalar SNone; OList [OTensor tb]].

(** The outputs of a model: the last hidden state, no cache, the hidden
    states of two layers, no attentions. *)
Definition model_outputs : pyobj :=
  OBaseModelOutputWithPast (OTensor ta) (OScalar SNone)
    (OTuple [OTensor ta; OTensor tb]) (OScalar SNone).



(** An editing function that does not keep the shape of its input. *)
Definition reshaping_edit : editing_fn :=
  λ current_module inputs save_ctx modules,
    (Ok (mkTensor [1] [0%Z]), save_ctx).

Definition reshaping_hook : HookFunction :=
  HookFunction_init "layers.0" [None; None] (Some reshaping_edit) 0.

(** Rank 0 of a tensor-parallel group of two, whose peer holds [tb]. *)
Definition two_ranks : tp_group := TpGroup 2 0 true (λ t, [t; tb]).

Definition sharded_session : world :=
  World (Shared ∅ [] "GPU" (Some ∅)) (Runtime false NO None two_ranks).
End Example.

(** ** The remaining functions of the three files *)

(** *** [_recursively_find_first_tensor] ([utils.py]) *)

(** [for ele in obj: res = f(ele); if res is not None: return res], falling
    off the loop with [None]. *)
Definition first_not_none (f : pyobj → pyobj) : list pyobj → pyobj :=
  fix loop (eles : list pyobj) : pyobj :=
    match eles with
    | [] => OScalar SNone
    | ele :: rest =>
        let res := f ele in
        if is_none_obj res then loop rest else res
    end.

(** Iterating a tuple or a list yields its items.  A
    [BaseModelOutputWithPast] is an ordered dictionary: iterating it yields
    the names of its fields, strings, on which the function returns
    [None]. *)
Fixpoint _recursively_find_first_tensor (obj : pyobj) : pyobj :=
  match obj with
  | OTensor _ => obj
  | OTuple items => first_not_none _recursively_find_first_tensor items
  | OList items => first_not_none _recursively_find_first_tensor items
  | OBaseModelOutputWithPast _ _ _ _ => OScalar SNone
  | OScalar _ => OScalar SNone
  end.

(** No [BaseModelOutputWithPast] anywhere in the object. *)
Fixpoint no_model_output (obj : pyobj) : bool :=
  match obj with
  | OTensor _ => true
  | OTuple items => forallb no_model_output items
  | OList items => forallb no_model_output items
  | OBaseModelOutputWithPast _ _ _ _ => false
  | OScalar _ => true
  end.

(** *** [destroy_distributed_backend] ([distributed_api.py]) *)

Definition destroy_distributed_backend (rt : runtime) : runtime :=
  set_active_backend None rt.

(** *** The entry point of a hook ([hook_function.py]) *)

(** What a call of the hook can raise above the pipeline. *)
Inductive call_error : Type :=
| PipelineError (e : exn)     (* raised by the handling functions *)
| KwargsError                 (* NotImplementedError of [__call__] *)
| HookTypeKeyError            (* KeyError of [hook_type_to_impl_fn[self._hook_type]] *)
| ArgumentCountError          (* TypeError: wrong number of positional arguments *)
| NoSuchMethodError.          (* AttributeError of [self._template_layer_outputs] *)

Inductive outcome (A : Type) : Type :=
| Returned (a : A)
| Raised (e : call_error).
Arguments Returned {A} a.
Arguments Raised {A} e.

(** The positional arguments of a call, by their number: [hook(grad)],
    [hook(module, args)], [hook(module, a, b)], and any other number of
    arguments. *)
Inductive hook_args : Type :=
| ArgsTensor (grad : pyobj)
| ArgsModule1 (module : module_handle) (x : pyobj)
| ArgsModule2 (module : module_handle) (x y : pyobj)
| ArgsOther.

Definition hook_impl_fn : Type := hook_args → hstate → outcome pyobj * hstate.

Definition run_pipeline {A} (m : M A) : hstate → outcome A * hstate :=
  λ s, match m s with
       | (Ok a, s') => (Returned a, s')
       | (Err e, s') => (Raised (PipelineError e), s')
       end.

Definition _forward_hook_impl : hook_impl_fn :=
  λ args s,
    match args with
    | ArgsModule2 module _inputs outputs =>
        run_pipeline (_template_handle_layer_outputs module outputs) s
    | _ => (Raised ArgumentCountError, s)
    end.

Definition _full_backward_hook_impl : hook_impl_fn :=
  λ args s,
    match args with
    | ArgsModule2 module grad_inputs _grad_outputs =>
        run_pipeline (_template_handle_layer_outputs module grad_inputs) s
    | _ => (Raised ArgumentCountError, s)
    end.

(** [self._template_handle_tensor(None, grad)]; an object without [shape]
    fails on the first statement. *)
Definition _tensor_hook_impl : hook_impl_fn :=
  λ args s,
    match args with
    | ArgsTensor (OTensor grad) =>
        run_pipeline (out <- _template_handle_tensor None grad ;;
                      ret (OTensor out)) s
    | ArgsTensor _ => (Raised (PipelineError NoShapeAttributeError), s)
    | _ => (Raised ArgumentCountError, s)
    end.

(** Both call [self._template_layer_outputs], a method the class does not
    have. *)
Definition _forward_pre_hook_impl : hook_impl_fn :=
  λ args s,
    match args with
    | ArgsModule1 module args => (Raised NoSuchMethodError, s)
    | _ => (Raised ArgumentCountError, s)
    end.

Definition _full_backward_pre_hook_impl : hook_impl_fn :=
  λ args s,
    match args with
    | ArgsModule1 module grad_outputs => (Raised NoSuchMethodError, s)
    | _ => (Raised ArgumentCountError, s)
    end.

Definition hook_type_to_impl_fn : gmap string hook_impl_fn :=
  list_to_map
    [ ("forward", _forward_hook_impl);
      ("full_backward", _full_backward_hook_impl);
      ("tensor", _tensor_hook_impl);
      ("forward_pre", _forward_pre_hook_impl);
      ("full_backward_pre", _full_backward_pre_hook_impl) ].

(** [self._hook_type], [None] until the hook is registered, is only read
    here and is an argument. *)
Definition _dispatch_hook_function (_hook_type : option string)
    (hook_function_args : hook_args) : hstate → outcome pyobj * hstate :=
  λ s,
    match _hook_type ≫= (hook_type_to_impl_fn !!.) with
    | None => (Raised HookTypeKeyError, s)
    | Some handle_fn => handle_fn hook_function_args s
    end.

(** [HookFunction.__call__] *)
Definition HookFunction_call (_hook_type : option string) (args : hook_args)
    (kwargs : list (string * pyobj)) : hstate → outcome pyobj * hstate :=
  λ s,
    if negb (bool_decide (length kwargs = 0)) then (Raised KwargsError, s)
    else _dispatch_hook_function _hook_type args s.

(** What the hook code reads of a session and never writes: the offload
    mode and the process state. *)
Definition session_frame (w : world) : string * runtime :=
  (offload_mode (w_shared w), w_runtime w).

(** The offload function of the hook is unset, or is one the hook made for
    its own module name. *)
Definition offload_is_own (self : HookFunction) : Prop :=
  _offload self = None
  ∨ ∃ capture, _offload self = Some (offload_with capture (module_name self)).

(** * Proofs *)

(** ** Dispatch on the registries

    [_flatten_dfs] matches on the object; these are the three cases the
    registries of [utils.py] tell apart. *)

Lemma registry_dispatch (obj : pyobj) :
  match obj with
  | OTensor _ => is_leaf_obj obj = true
  | OTuple _ =>
      is_leaf_obj obj = false ∧ is_internal_obj obj = true
      ∧ get_internal_node obj = Ok TupleNode
  | OList _ =>
      is_leaf_obj obj = false ∧ is_internal_obj obj = true
      ∧ get_internal_node obj = Ok ListNode
  | OBaseModelOutputWithPast _ _ _ _ =>
      is_leaf_obj obj = false ∧ is_internal_obj obj = true
      ∧ get_internal_node obj = Ok BaseModelOutputWithPastNode
  | OScalar _ => is_leaf_obj obj = false ∧ is_internal_obj obj = false
  end.
Proof. destruct obj as [| | | |[]]; done. Qed.

(** ** [_flatten] computes [node_of] and [leaves_of] *)

Lemma alter_middle {A} (f : A → A) (pre : list A) (x : A) (post : list A) :
  alter f (length pre) (pre ++ x :: post) = pre ++ f x :: post.
Proof. induction pre as [|y pre IH]; simpl; [done | by f_equal]. Qed.

Lemma reads_app base r ns more n :
  reads base r ns n → reads base r (ns ++ more) n.
Proof.
  destruct r as [l|s]; simpl; [|done].
  intros [Hle Hl]. split; [done|]. by apply lookup_app_l_Some.
Qed.

Lemma reads_shift base k r front ns n :
  length front = k → reads (base + k) r ns n → reads base r (front ++ ns) n.
Proof.
  intros Hk. destruct r as [l|s]; simpl; [|done].
  intros [Hle Hl]. split; [lia|].
  rewrite lookup_app_r by lia.
  replace (l - base - length front) with (l - (base + k)) by lia. done.
Qed.

Lemma read_child_reads base r ns tail n :
  reads (S base) r ns n → read_child base (ns ++ tail) r = n.
Proof.
  destruct r as [l|s]; simpl; [|done].
  intros [Hle Hl]. by rewrite (lookup_app_l_Some _ _ _ _ Hl).
Qed.

Local Ltac len := repeat rewrite length_app; simpl; lia.

Lemma visit_children_spec (cs : list pyobj) :
  Forall dfs_ok cs →
  ∀ pre cls rs0 mid order leaves,
  ∃ rs new_cells new_order,
    visit_children _flatten_dfs (length pre) cs
      (FlatState (pre ++ CInternal cls rs0 :: mid) order leaves)
    = FlatState (pre ++ CInternal cls (rs0 ++ rs) :: mid ++ new_cells)
                (order ++ new_order)
                (leaves ++ concat (leaves_of <$> cs))
    ∧ ∀ rest, ∃ ns,
        length ns = length new_cells
        ∧ read_cells (S (length pre + length mid)) (new_cells ++ rest)
          = ns ++ read_cells (S (length pre + length mid) + length new_cells) rest
        ∧ Forall2 (λ r c, reads (S (length pre + length mid)) r ns (node_of c))
                  rs cs.
Proof.
  induction 1 as [|c cs Hc _ IH]; intros pre cls rs0 mid order leaves.
  - exists [], [], []. simpl. rewrite !app_nil_r. split; [done|].
    intros rest. exists []. simpl. rewrite Nat.add_0_r. by repeat split.
  - destruct (Hc (FlatState (pre ++ CInternal cls rs0 :: mid) order leaves))
      as (r & cells_c & order_c & Hrun & Hread).
    cbn [fs_store fs_order fs_leaves] in Hrun, Hread.
    destruct (IH pre cls (rs0 ++ [r]) (mid ++ cells_c)
                (order ++ r :: order_c) (leaves ++ leaves_of c))
      as (rs & cells & order' & Hloop & Hreads).
    exists (r :: rs), (cells_c ++ cells), (r :: order_c ++ order').
    split.
    + cbn [visit_children]. rewrite Hrun. unfold children_append.
      cbn [fs_store fs_order fs_leaves].
      rewrite <- (app_assoc pre), <- app_comm_cons, alter_middle.
      rewrite Hloop. f_equal.
      * by rewrite <- !app_assoc.
      * by rewrite <- !app_assoc.
      * cbn [fmap list_fmap concat]. by rewrite <- !app_assoc.
    + intros rest.
      destruct (Hreads rest) as (ns' & Hlen' & Hcells' & Hall).
      destruct (Hread (cells ++ rest)) as (ns_c & Hlen_c & Hcells_c & Hr).
      replace (length (pre ++ CInternal cls rs0 :: mid))
        with (S (length pre + length mid)) in * by len.
      replace (S (length pre + length (mid ++ cells_c)))
        with (S (length pre + length mid) + length cells_c) in * by len.
      exists (ns_c ++ ns'). split; [len|]. split.
      * rewrite <- app_assoc, Hcells_c, Hcells', <- app_assoc.
        do 3 f_equal. len.
      * constructor.
        -- by apply reads_app.
        -- eapply Forall2_impl; [exact Hall|]. intros r' c' Hr'.
           apply (reads_shift _ (length cells_c)); done.
Qed.

(** A container object: a fresh node, then its children in order. *)
Lemma container_ok (obj : pyobj) (cls : internal_node_cls) (cs : list pyobj) :
  (∀ st, _flatten_dfs obj st
         = (RNode (length (fs_store st)),
            visit_children _flatten_dfs (length (fs_store st)) cs
              (new_internal cls st).2)) →
  node_of obj = NInternal cls (node_of <$> cs) →
  leaves_of obj = concat (leaves_of <$> cs) →
  Forall dfs_ok cs → dfs_ok obj.
Proof.
  intros Hdfs Hnode Hleaves Hcs [store order leaves].
  destruct (visit_children_spec cs Hcs store cls [] [] (order ++ [RNode (length store)]) leaves)
    as (rs & cells & order' & Hloop & Hreads).
  exists (RNode (length store)), (CInternal cls rs :: cells), order'.
  split.
  - rewrite Hdfs. unfold new_internal. cbn [fs_store fs_order fs_leaves snd].
    rewrite Hloop, Hleaves. simpl. by rewrite <- app_assoc.
  - intros rest. destruct (Hreads rest) as (ns & Hlen & Hcells & Hall).
    cbn [fs_store]. rewrite Nat.add_0_r in Hcells, Hall.
    exists (NInternal cls (node_of <$> cs) :: ns).
    split; [simpl; lia|]. split.
    + cbn [app read_cells]. rewrite Hcells. cbn [app]. f_equal.
      * f_equal. clear -Hall. induction Hall as [|r c rs cs Hr _ IH]; [done|].
        cbn [fmap list_fmap]. f_equal; [|exact IH].
        by apply read_child_reads.
      * do 2 f_equal. simpl. lia.
    + simpl. rewrite Nat.sub_diag. by rewrite Hnode.
Qed.

Lemma dfs_ok_all (obj : pyobj) : dfs_ok obj.
Proof.
  induction obj as [t|items IH|items IH|a b c d IHa IHb IHc IHd|s]
    using pyobj_forall_ind.
  - intros [store order leaves].
    exists (RNode (length store)), [CLeaf (t_shape t)], []. split; [done|].
    intros rest. exists [NLeaf (t_shape t)]. simpl.
    rewrite Nat.sub_diag. repeat split; try done. do 2 f_equal. lia.
  - by apply (container_ok _ TupleNode items).
  - by apply (container_ok _ ListNode items).
  - apply (container_ok _ BaseModelOutputWithPastNode [a; b; c; d]).
    + intros st. simpl.
      repeat match goal with
             | |- context [_flatten_dfs ?x ?s] => destruct (_flatten_dfs x s)
             end.
      done.
    + done.
    + simpl. by rewrite app_nil_r.
    + by repeat constructor.
  - intros [store order leaves].
    exists (RScalar s), [], []. simpl. rewrite !app_nil_r. split; [done|].
    intros rest. exists []. simpl. rewrite Nat.add_0_r. by repeat split.
Qed.

(** [_flatten] returns: the template is [node_of] and the leaves are
    [leaves_of]. *)
Lemma _flatten_eq (root_obj : pyobj) :
  _flatten root_obj = Ok (node_of root_obj, leaves_of root_obj).
Proof.
  unfold _flatten.
  destruct (dfs_ok_all root_obj (FlatState [] [] []))
    as (r & cells & order' & Hrun & Hread).
  rewrite Hrun. simpl.
  destruct (Hread []) as (ns & Hlen & Hcells & Hr).
  simpl in Hcells, Hr. rewrite !app_nil_r in Hcells.
  destruct r as [l|s]; simpl in *.
  - destruct Hr as [_ Hl]. rewrite Nat.sub_0_r in Hl.
    by rewrite Hcells, Hl.
  - by rewrite Hr.
Qed.

(** ** [_unflatten] consumes the leaves in the order [_flatten] produced them *)

Lemma list_pop_reverse (x : pyobj) (more : list pyobj) :
  list_pop (reverse (x :: more)) = Ok (x, reverse more).
Proof.
  unfold list_pop. rewrite reverse_cons, last_snoc, length_app. simpl.
  replace (length (reverse more) + 1 - 1) with (length (reverse more)) by lia.
  by rewrite take_app_length.
Qed.

(** The objects [ys] stand where the objects [cs] stood: what
    [unflatten_children] returns when every child is rebuilt from its share
    [share c y] of the leaves. *)
Lemma unflatten_children_spec (R : pyobj → pyobj → list pyobj → Prop)
    (cs : list pyobj) :
  Forall (λ c, ∀ y ls more, R c y ls →
            _unflatten_dfs (node_of c) (reverse (ls ++ more))
            = Ok (y, reverse more)) cs →
  ∀ ys lss more, Forall3 R cs ys lss →
    unflatten_children _unflatten_dfs (node_of <$> cs)
      (reverse (concat lss ++ more))
    = Ok (ys, reverse more).
Proof.
  induction 1 as [|c cs Hc _ IH]; intros ys lss more Hall;
    inversion Hall as [|? y ls ? ys' lss' HR Hrest]; subst; [done|].
  cbn [fmap list_fmap unflatten_children concat].
  rewrite <- app_assoc, (Hc y ls _ HR). cbn [mbind result_bind].
  by rewrite (IH _ _ _ Hrest).
Qed.

(** ** The constructor of [BaseModelOutputWithPast] *)

(** With a tensor as first field, or another field that is not [None], the
    constructor stores its four arguments. *)
Lemma BaseModelOutputWithPast_new_plain (a b c d : pyobj) :
  is_tensor a || negb (is_none_obj b && is_none_obj c && is_none_obj d) = true →
  BaseModelOutputWithPast_new a b c d = Ok (OBaseModelOutputWithPast a b c d).
Proof.
  unfold BaseModelOutputWithPast_new. intros Hplain.
  destruct (is_none_obj b && is_none_obj c && is_none_obj d), (is_tensor a);
    done.
Qed.

Lemma is_tensor_node_of (y c : pyobj) :
  node_of y = node_of c → is_tensor y = is_tensor c.
Proof. destruct y, c; done. Qed.

Lemma is_none_obj_node_of (y c : pyobj) :
  node_of y = node_of c → is_none_obj y = is_none_obj c.
Proof.
  destruct y as [| | | |[]], c as [| | | |[]]; done.
Qed.


(** ** Equality of templates *)

Lemma zip_with_ext_Forall {A B C} (f g : A → B → C) (l : list A) (k : list B) :
  Forall (λ x, ∀ y, f x y = g x y) l → zip_with f l k = zip_with g l k.
Proof.
  intros Hl. revert k.
  induction Hl as [|x l Hx _ IH]; intros [|y k]; simpl; [done..|].
  by rewrite Hx, IH.
Qed.

Lemma InternalNode_eq_dfs_internal cls1 children1 cls2 children2 :
  InternalNode_eq_dfs (NInternal cls1 children1) (NInternal cls2 children2)
  = bool_decide (cls1 = cls2)
    && bool_decide (length children1 = length children2)
    && forallb id (zip_with InternalNode_eq_dfs children1 children2).
Proof.
  cbn [InternalNode_eq_dfs].
  destruct cls1, cls2; cbn [node_type];
    destruct (bool_decide (length children1 = length children2)); done.
Qed.

(** Below an internal root, [InternalNode.__eq__] compares as the
    specification says. *)
Lemma InternalNode_eq_dfs_structural (a : node) :
  ∀ b, InternalNode_eq_dfs a b = structurally_equal a b.
Proof.
  induction a as [cls children IH|val|s] using node_forall_ind; intros b.
  - destruct b as [cls' children'|val'|s'].
    + rewrite InternalNode_eq_dfs_internal. cbn [structurally_equal].
      by rewrite (zip_with_ext_Forall _ _ _ _ IH).
    + by destruct cls.
    + by destruct cls, s'.
  - destruct b as [cls' children'|val'|s']; [by destruct cls'|done|by destruct s'].
  - destruct b as [cls' children'|val'|s'].
    + by destruct cls', s.
    + by destruct s.
    + cbn [InternalNode_eq_dfs structurally_equal node_type].
      by destruct (bool_decide (scalar_type s = scalar_type s')).
Qed.

(** C5.  The code on the templates of two tensors: the template that
    [_flatten] returns for a tensor is one leaf node, and comparing it with
    itself, which the specification calls equal, raises [TypeError].  So
    does every comparison with a leaf node on the left, and every one of a
    scalar with a leaf node.  With an internal node on the left the result
    is the one the specification gives: the same node type at every
    position, the same number of children, equal children, scalars of one
    type by value, leaf nodes below the root always equal. *)
Theorem C5_leaf_equality_raises :
  (∃ template leaves,
     _flatten (OTensor Example.ta) = Ok (template, leaves)
     ∧ structurally_equal template template = true
     ∧ node_eq template template = Err IsInstanceTypeError)
  ∧ (∀ val b, node_eq (NLeaf val) b = Err IsInstanceTypeError)
  ∧ (∀ s val, node_eq (NScalar s) (NLeaf val) = Err IsInstanceTypeError)
  ∧ (∀ cls children b,
       node_eq (NInternal cls children) b
       = Ok (structurally_equal (NInternal cls children) b)).
Proof.
  split; [|split; [|split]].
  - eexists _, _. split; [reflexivity|]. split; reflexivity.
  - done.
  - done.
  - intros cls children b. cbn [node_eq].
    by rewrite InternalNode_eq_dfs_structural.
Qed.

(** ** Rebuilding an object around replaced leaves *)

Lemma rebuilds_children (cs : list pyobj) :
  Forall (λ c, ∀ ls, Forall2 same_shape_tensor (leaves_of c) ls
                     → ∃ y, rebuilds c y ls) cs →
  ∀ ls, Forall2 same_shape_tensor (concat (leaves_of <$> cs)) ls →
  ∃ ys lss, ls = concat lss ∧ Forall3 rebuilds cs ys lss.
Proof.
  induction 1 as [|c cs Hc _ IH]; intros ls Hls.
  - apply Forall2_nil_inv_l in Hls as ->. exists [], []. split; [done|constructor].
  - cbn [fmap list_fmap concat] in Hls.
    apply Forall2_app_inv_l in Hls as (ls1 & ls2 & H1 & H2 & ->).
    destruct (Hc _ H1) as (y & Hy).
    destruct (IH _ H2) as (ys & lss & -> & Hall).
    exists (y :: ys), (ls1 :: lss). split; [done|by constructor].
Qed.

Lemma rebuilds_nodes cs ys lss :
  Forall3 rebuilds cs ys lss →
  node_of <$> ys = node_of <$> cs ∧ concat (leaves_of <$> ys) = concat lss.
Proof.
  induction 1 as [|c y ls cs ys lss (_ & Hn & Hl) _ [IHn IHl]]; [done|].
  cbn [fmap list_fmap concat]. by rewrite Hn, Hl, IHn, IHl.
Qed.

Lemma rebuilds_unflatten_children cs ys lss more :
  Forall3 rebuilds cs ys lss →
  unflatten_children _unflatten_dfs (node_of <$> cs)
    (reverse (concat lss ++ more))
  = Ok (ys, reverse more).
Proof.
  intros Hall. apply (unflatten_children_spec rebuilds); [|done].
  apply Forall_forall. intros c _ y ls more' (Hrun & _). apply Hrun.
Qed.

Lemma forallb_Forall_impl {A} (f : A → bool) (P : A → Prop) (l : list A) :
  Forall (λ x, f x = true → P x) l → forallb f l = true → Forall P l.
Proof.
  induction 1 as [|x l Hx _ IH]; simpl; [constructor|].
  intros [Hfx Hfl]%andb_true_iff. constructor; auto.
Qed.

(** Around tensors of the shapes of its leaves, an object whose model
    outputs are plain is rebuilt with its template. *)
Lemma unflatten_rebuilds (x : pyobj) :
  model_outputs_plain x = true →
  ∀ ls, Forall2 same_shape_tensor (leaves_of x) ls → ∃ y, rebuilds x y ls.
Proof.
  assert (Hcontainer : ∀ cls cs (mk : list pyobj → pyobj),
    (∀ ys, node_of <$> ys = node_of <$> cs →
           node_unflatten cls ys = Ok (mk ys)
           ∧ node_of (mk ys) = NInternal cls (node_of <$> ys)
           ∧ leaves_of (mk ys) = concat (leaves_of <$> ys)) →
    Forall (λ c, ∀ ls, Forall2 same_shape_tensor (leaves_of c) ls
                       → ∃ y, rebuilds c y ls) cs →
    ∀ x, node_of x = NInternal cls (node_of <$> cs) →
         leaves_of x = concat (leaves_of <$> cs) →
    ∀ ls, Forall2 same_shape_tensor (leaves_of x) ls → ∃ y, rebuilds x y ls).
  { intros cls cs mk Hmk Hcs x0 Hx0 Hl0 ls Hls. rewrite Hl0 in Hls.
    destruct (rebuilds_children cs Hcs ls Hls) as (ys & lss & -> & Hall).
    destruct (rebuilds_nodes _ _ _ Hall) as [Hn Hl].
    destruct (Hmk ys Hn) as (Hnew & Hmkn & Hmkl).
    exists (mk ys). split; [|split].
    - intros more. rewrite Hx0. cbn [_unflatten_dfs].
      rewrite (rebuilds_unflatten_children _ _ _ _ Hall).
      cbn [mbind result_bind]. by rewrite Hnew.
    - by rewrite Hmkn, Hn, Hx0.
    - by rewrite Hmkl, Hl. }
  induction x as [t|items IH|items IH|a b c d IHa IHb IHc IHd|s]
    using pyobj_forall_ind; intros Hplain ls Hls.
  - cbn [leaves_of] in Hls.
    apply Forall2_cons_inv_l in Hls as (new & ls' & Hnew & Hnil & ->).
    apply Forall2_nil_inv_l in Hnil as ->.
    destruct Hnew as (t0 & t' & [= <-] & -> & Hshape).
    exists (OTensor t'). split; [|split].
    + intros more. apply list_pop_reverse.
    + simpl. by rewrite Hshape.
    + done.
  - apply (Hcontainer TupleNode items OTuple) with (x := OTuple items);
      try done.
    by apply (forallb_Forall_impl model_outputs_plain).
  - apply (Hcontainer ListNode items OList) with (x := OList items);
      try done.
    by apply (forallb_Forall_impl model_outputs_plain).
  - cbn [model_outputs_plain] in Hplain.
    apply andb_true_iff in Hplain as [Hplain Hd].
    apply andb_true_iff in Hplain as [Hplain Hc].
    apply andb_true_iff in Hplain as [Hplain Hb].
    apply andb_true_iff in Hplain as [Hfields Ha].
    apply (Hcontainer BaseModelOutputWithPastNode [a; b; c; d]
             (λ ys, match ys with
                    | [ya; yb; yc; yd] => OBaseModelOutputWithPast ya yb yc yd
                    | _ => OScalar SNone
                    end))
      with (x := OBaseModelOutputWithPast a b c d); try done.
    + intros [|ya [|yb [|yc [|yd [|? ?]]]]]; try done.
      intros [= Hya Hyb Hyc Hyd]. split; [|split].
      * cbn [node_unflatten]. apply BaseModelOutputWithPast_new_plain.
        by rewrite (is_tensor_node_of _ _ Hya), (is_none_obj_node_of _ _ Hyb),
          (is_none_obj_node_of _ _ Hyc), (is_none_obj_node_of _ _ Hyd).
      * done.
      * simpl. by rewrite app_nil_r.
    + repeat constructor; auto.
    + simpl. by rewrite app_nil_r.
  - cbn [leaves_of] in Hls. apply Forall2_nil_inv_l in Hls as ->.
    by exists (OScalar s).
Qed.

(** ** The leaves of an object *)

Lemma leaves_of_tensors (x : pyobj) :
  Forall (λ leaf, ∃ t, leaf = OTensor t) (leaves_of x).
Proof.
  induction x as [t|items IH|items IH|a b c d IHa IHb IHc IHd|s]
    using pyobj_forall_ind; cbn [leaves_of].
  - repeat constructor. by exists t.
  - induction IH; simpl; [constructor|by apply Forall_app].
  - induction IH; simpl; [constructor|by apply Forall_app].
  - by repeat apply Forall_app_2.
  - constructor.
Qed.

Lemma count_leaf_nodes_node_of (x : pyobj) :
  count_leaf_nodes (node_of x) = length (leaves_of x).
Proof.
  assert (Hitems : ∀ items,
    Forall (λ c, count_leaf_nodes (node_of c) = length (leaves_of c)) items →
    sum_list (count_leaf_nodes <$> (node_of <$> items))
    = length (concat (leaves_of <$> items))).
  { induction 1 as [|c cs Hc _ IHcs]; [done|].
    cbn [fmap list_fmap sum_list sum_list_with concat].
    rewrite length_app, <- Hc, <- IHcs. done. }
  induction x as [t|items IH|items IH|a b c d IHa IHb IHc IHd|s]
    using pyobj_forall_ind; cbn [leaves_of node_of count_leaf_nodes].
  - done.
  - by apply Hitems.
  - by apply Hitems.
  - change (sum_list (count_leaf_nodes <$> (node_of <$> [a; b; c; d]))
            = length (leaves_of a ++ leaves_of b ++ leaves_of c ++ leaves_of d)).
    rewrite (Hitems [a; b; c; d]) by (by repeat constructor).
    simpl. by rewrite app_nil_r.
  - done.
Qed.

(** ** An object is determined by its template and its leaves *)

Lemma node_leaves_injective (x : pyobj) :
  ∀ y, node_of x = node_of y → leaves_of x = leaves_of y → x = y.
Proof.
  assert (Hitems : ∀ items,
    Forall (λ c, ∀ y, node_of c = node_of y → leaves_of c = leaves_of y
                      → c = y) items →
    ∀ items', node_of <$> items = node_of <$> items' →
              concat (leaves_of <$> items) = concat (leaves_of <$> items') →
              items = items').
  { induction 1 as [|c cs Hc _ IH]; intros [|c' cs'] Hn Hl; try done.
    cbn [fmap list_fmap concat] in Hn, Hl. injection Hn as Hn1 Hn2.
    apply app_inj_1 in Hl as [Hl1 Hl2].
    - f_equal; auto.
    - by rewrite <- !count_leaf_nodes_node_of, Hn1. }
  induction x as [t|items IH|items IH|a b c d IHa IHb IHc IHd|s]
    using pyobj_forall_ind; intros [t'|items'|items'|a' b' c' d'|s'] Hn Hl;
    cbn [node_of] in Hn; try done.
  - by simplify_eq.
  - injection Hn as Hn. f_equal. by apply Hitems.
  - injection Hn as Hn. f_equal. by apply Hitems.
  - injection Hn as Hna Hnb Hnc Hnd.
    assert ([a; b; c; d] = [a'; b'; c'; d']) as [= -> -> -> ->]; [|done].
    apply Hitems.
    + repeat constructor; auto.
    + simpl. by rewrite Hna, Hnb, Hnc, Hnd.
    + simpl. rewrite !app_nil_r. exact Hl.
  - by injection Hn as ->.
Qed.

(** From its own template and leaves, an object whose model outputs are
    plain is rebuilt as it is. *)
Lemma unflatten_dfs_roundtrip (obj : pyobj) :
  model_outputs_plain obj = true →
  ∀ more, _unflatten_dfs (node_of obj) (reverse (leaves_of obj ++ more))
          = Ok (obj, reverse more).
Proof.
  intros Hplain more.
  destruct (unflatten_rebuilds obj Hplain (leaves_of obj))
    as (y & Hrun & Hnode & Hleaves).
  { apply Forall_Forall2_diag. eapply Forall_impl; [apply leaves_of_tensors|].
    intros leaf [t ->]. by exists t, t. }
  rewrite Hrun. by rewrite (node_leaves_injective y obj Hnode Hleaves).
Qed.

(** ** Signed indices *)

Lemma py_index_in_range {A} (l : list A) (i : Z) :
  (- Z.of_nat (length l) ≤ i < Z.of_nat (length l))%Z →
  py_index l i = l !! py_position (length l) i
  ∧ py_position (length l) i < length l.
Proof.
  intros Hi. unfold py_index, py_position.
  repeat case_bool_decide; try lia; split; (done || lia).
Qed.

Lemma py_index_out_of_range {A} (l : list A) (i : Z) :
  (i < - Z.of_nat (length l) ∨ Z.of_nat (length l) ≤ i)%Z →
  py_index l i = None.
Proof. intros Hi. unfold py_index. repeat case_bool_decide; (done || lia). Qed.

Lemma py_index_Some_in_range {A} (l : list A) (i : Z) (x : A) :
  py_index l i = Some x →
  (- Z.of_nat (length l) ≤ i < Z.of_nat (length l))%Z.
Proof.
  unfold py_index. repeat case_bool_decide; (done || lia).
Qed.

(** [l[:i] + [x] + l[i+1:]] is [l] with the element at [i] replaced,
    followed, when [i] is [-1], by a copy of [l]. *)
Lemma py_slices_replace {A} (l : list A) (i : Z) (x : A) :
  (- Z.of_nat (length l) ≤ i < Z.of_nat (length l))%Z →
  ∃ extra,
    py_slice_to l i ++ [x] ++ py_slice_from l (i + 1)
    = <[py_position (length l) i:=x]> l ++ extra.
Proof.
  intros Hi. unfold py_slice_to, py_slice_from, py_bound, py_position.
  destruct (decide (i = -1)%Z) as [->|Hne].
  - exists l. repeat case_bool_decide; try lia.
    replace (Z.to_nat (0 `max` (Z.of_nat (length l) + -1)))
      with (Z.to_nat (Z.of_nat (length l) + -1)) by lia.
    set (p := Z.to_nat (Z.of_nat (length l) + -1)).
    replace (Z.to_nat ((-1 + 1) `min` Z.of_nat (length l))) with 0 by lia.
    rewrite drop_0.
    rewrite (insert_take_drop l p x) by (subst p; lia).
    rewrite (drop_ge l (S p)) by (subst p; lia).
    by rewrite <- app_assoc.
  - exists []. rewrite app_nil_r.
    repeat case_bool_decide; try lia.
    + replace (Z.to_nat (0 `max` (Z.of_nat (length l) + i)))
        with (Z.to_nat (Z.of_nat (length l) + i)) by lia.
      replace (Z.to_nat (0 `max` (Z.of_nat (length l) + (i + 1))))
        with (S (Z.to_nat (Z.of_nat (length l) + i))) by lia.
      by rewrite insert_take_drop by lia.
    + replace (Z.to_nat (i `min` Z.of_nat (length l))) with (Z.to_nat i) by lia.
      replace (Z.to_nat ((i + 1) `min` Z.of_nat (length l)))
        with (S (Z.to_nat i)) by lia.
      by rewrite insert_take_drop by lia.
Qed.

(** ** The tensor pipeline returns the shape it was given *)

Lemma bind_Ok {A B} (m : M A) (k : A → M B) s b s' :
  bind m k s = (Ok b, s') → ∃ a s1, m s = (Ok a, s1) ∧ k a s1 = (Ok b, s').
Proof.
  unfold bind. destruct (m s) as [[a|e] s1]; [eauto|done].
Qed.

Lemma _template_handle_tensor_shape module tensor s out s' :
  _template_handle_tensor module tensor s = (Ok out, s') →
  t_shape out = t_shape tensor.
Proof.
  unfold _template_handle_tensor. intros H.
  apply bind_Ok in H as (_ & s1 & _ & H).
  apply bind_Ok in H as (out' & s2 & _ & H).
  case_bool_decide as Hshape; [|done].
  unfold ret in H. by simplify_eq.
Qed.

(** ** Unpacking and repacking layer outputs *)

Lemma flatten_eq (x : pyobj) : flatten x = Ok (node_of x, leaves_of x).
Proof. apply _flatten_eq. Qed.

Lemma flatten_inv x template leaves :
  flatten x = Ok (template, leaves) →
  template = node_of x ∧ leaves = leaves_of x.
Proof. rewrite flatten_eq. by intros [= <- <-]. Qed.

(** A field holding [None] is a scalar node and adds no leaf. *)
Lemma flatten_None : flatten (OScalar SNone) = Ok (NScalar SNone, []).
Proof. done. Qed.

Lemma _unpack_layer_outputs_eq self x :
  _unpack_layer_outputs self x
  = match py_index (leaves_of x) (unpack_idx self) with
    | Some leaf =>
        Ok (leaf, λ _edited_tensor,
              unflatten (node_of x)
                (py_slice_to (leaves_of x) (unpack_idx self)
                 ++ [_edited_tensor]
                 ++ py_slice_from (leaves_of x) (unpack_idx self + 1)))
    | None => Err MissingLeafError
    end.
Proof.
  unfold _unpack_layer_outputs. rewrite flatten_eq. cbn [mbind result_bind].
  destruct (py_index (leaves_of x) (unpack_idx self)) as [leaf|] eqn:Hleaf;
    [|done].
  assert (leaf ∈ leaves_of x) as Hin.
  { unfold py_index in Hleaf.
    repeat case_bool_decide; try done; by eapply list_elem_of_lookup_2. }
  pose proof (leaves_of_tensors x) as Hall.
  rewrite Forall_forall in Hall. by destruct (Hall _ Hin) as [t ->].
Qed.

(** C10.  For every object, [flatten] returns; every element of the leaves
    list is an object of a registered leaf type and is not [None]; the
    template has as many leaf nodes as the list has leaves; and unpacking
    the layer outputs never fails on [assert tensor is not None]: at an
    index in range it returns that leaf, at any other index it fails with
    the missing-leaf error. *)
Theorem C10_flatten_leaves_are_leaf_objects (x : pyobj) :
  ∃ template leaves,
    flatten x = Ok (template, leaves)
    ∧ Forall (λ leaf, is_leaf_obj leaf = true ∧ is_none_obj leaf = false) leaves
    ∧ count_leaf_nodes template = length leaves
    ∧ ∀ self,
        match py_index leaves (unpack_idx self) with
        | Some leaf =>
            ∃ repack, _unpack_layer_outputs self x = Ok (leaf, repack)
        | None => _unpack_layer_outputs self x = Err MissingLeafError
        end.
Proof.
  exists (node_of x), (leaves_of x). split; [apply flatten_eq|]. split; [|split].
  - eapply Forall_impl; [apply leaves_of_tensors|]. by intros leaf [t ->].
  - apply count_leaf_nodes_node_of.
  - intros self. rewrite _unpack_layer_outputs_eq.
    destruct (py_index (leaves_of x) (unpack_idx self)); eauto.
Qed.

(** C8.  When the leaves list of the layer outputs has no element at the
    unpack index, in particular when it is empty, unpacking fails with the
    missing-leaf error, and so does the handling of the layer outputs,
    before anything of the tensor pipeline has run: the hook and the shared
    state are as they were. *)
Theorem C8_missing_leaf_fails (self : HookFunction) (x : pyobj)
    (template : node) (leaves : list pyobj) (module : module_handle)
    (w : world) :
  flatten x = Ok (template, leaves) →
  (unpack_idx self < - Z.of_nat (length leaves)
   ∨ Z.of_nat (length leaves) ≤ unpack_idx self)%Z →
  _unpack_layer_outputs self x = Err MissingLeafError
  ∧ _template_handle_layer_outputs module x (self, w)
    = (Err MissingLeafError, (self, w)).
Proof.
  intros [-> ->]%flatten_inv Hidx.
  assert (_unpack_layer_outputs self x = Err MissingLeafError) as Hunpack.
  { by rewrite _unpack_layer_outputs_eq, py_index_out_of_range. }
  split; [done|].
  unfold _template_handle_layer_outputs, bind, get_self, lift. simpl.
  by rewrite Hunpack.
Qed.

Lemma C8_missing_leaf_fails_witness :
  _unpack_layer_outputs (HookFunction_init "layer" [] None 0)
    (OTuple [OScalar SNone; OList []])
  = Err MissingLeafError
  ∧ _template_handle_layer_outputs None (OTuple [OScalar SNone; OList []])
      (HookFunction_init "layer" [] None 0,
       World (Shared ∅ [] "CPU" (Some ∅))
             (Runtime false NO None (TpGroup 1 0 true (λ t, [t]))))
    = (Err MissingLeafError,
       (HookFunction_init "layer" [] None 0,
        World (Shared ∅ [] "CPU" (Some ∅))
              (Runtime false NO None (TpGroup 1 0 true (λ t, [t]))))).
Proof.
  apply (C8_missing_leaf_fails _ _ (NInternal TupleNode
                                      [NScalar SNone; NInternal ListNode []]) []).
  - reflexivity.
  - simpl. lia.
Defined.


(** ** The check of the runtime functions *)

(** As soon as one of the four runtime functions is set, the check returns
    without touching anything: its last branch is never taken. *)
Lemma check_runtime_functions_some_set tensor self w :
  is_None (_collect self) && is_None (_disperse self)
  && is_None (_edit self) && is_None (_offload self) = false →
  check_runtime_functions tensor (self, w) = (Ok (), (self, w)).
Proof.
  intros Hset. unfold check_runtime_functions, bind, get_self. cbn [fst snd].
  replace (forallb id [is_None (_collect self); is_None (_disperse self);
                       is_None (_edit self); is_None (_offload self)])
    with false; [done|].
  rewrite <- Hset. simpl.
  by destruct (is_None (_collect self)), (is_None (_disperse self)),
       (is_None (_edit self)), (is_None (_offload self)).
Qed.

(** C2, what the code does.  A first call in a session whose offload mode
    is not one of the two known modes fails while the runtime functions are
    being set and leaves collect, disperse and edit set and offload unset.
    The next call on that hook does not raise the partial-state error: the
    check passes, collect runs, and the call of the unset offload function
    raises a TypeError. *)
Theorem C2_partial_state_is_not_detected :
  let w := World (Shared ∅ [] "cpu" (Some ∅))
                 (Runtime false NO None (TpGroup 1 0 true (λ t, [t]))) in
  let t := mkTensor [2] [1; 2]%Z in
  ∃ self1,
    _template_handle_tensor None t (HookFunction_init "layer" [None] None 0, w)
    = (Err KeyError, (self1, w))
    ∧ is_None (_collect self1) = false
    ∧ is_None (_disperse self1) = false
    ∧ is_None (_edit self1) = false
    ∧ is_None (_offload self1) = true
    ∧ _template_handle_tensor None t (self1, w)
      = (Err NoneNotCallableError, (self1, w)).
Proof. intros w t. eexists. repeat split; reflexivity. Qed.

(** ** The assertion on shapes *)

(** C3.  Every tensor that the tensor pipeline returns has the shape of the
    tensor it was given; and when the tensor that disperse produces differs
    in shape from the tensor given, the pipeline fails with the
    shape-mismatch error instead of returning it. *)
Theorem C3_shape_mismatch_is_an_error (module : module_handle)
    (tensor : Tensor) (s : hstate) :
  (∀ out s', _template_handle_tensor module tensor s = (Ok out, s') →
             t_shape out = t_shape tensor)
  ∧ (∀ s1 out s2,
       check_runtime_functions tensor s = (Ok (), s1) →
       collect_offload_edit_disperse module tensor s1 = (Ok out, s2) →
       t_shape out ≠ t_shape tensor →
       _template_handle_tensor module tensor s = (Err ShapeMismatchError, s2)).
Proof.
  split.
  - intros out s'. apply _template_handle_tensor_shape.
  - intros s1 out s2 Hcheck Hrun Hshape.
    unfold _template_handle_tensor, bind. rewrite Hcheck, Hrun.
    by rewrite bool_decide_false.
Qed.

(** ** Offloading *)

Lemma sink_append_entry name x (p : gmap string (list captured)) :
  default [] (sink_append name x p !! name) = default [] (p !! name) ++ [x].
Proof.
  unfold sink_append.
  destruct (p !! name) as [[|y ys]|] eqn:Hp; by rewrite lookup_insert_eq.
Qed.

Lemma sink_append_other name other x (p : gmap string (list captured)) :
  other ≠ name → sink_append name x p !! other = p !! other.
Proof.
  intros Hne. unfold sink_append.
  destruct (p !! name) as [[|y ys]|]; by rewrite lookup_insert_ne.
Qed.

Lemma offload_all_with capture name tensors w :
  is_Some (output_ptr (w_shared w)) →
  offload_guard (w_runtime w) = Ok true →
  ∃ w', offload_all (offload_with capture name) tensors w = (Ok (), w')
        ∧ sink_entry name w' = sink_entry name w ++ (capture <$> tensors)
        ∧ ∀ other, other ≠ name → sink_entry other w' = sink_entry other w.
Proof.
  revert w. induction tensors as [|t tensors IH]; intros w [p Hp] Hguard.
  - exists w. by rewrite app_nil_r.
  - destruct (IH (set_output_ptr (sink_append name (capture t) p) w))
      as (w' & Hrun & Hentry & Hother); [by eexists|done|].
    exists w'. split; [|split].
    + cbn [offload_all]. unfold offload_with at 1. by rewrite Hp, Hguard.
    + rewrite Hentry. unfold sink_entry. cbn. rewrite Hp.
      by rewrite sink_append_entry, <- app_assoc.
    + intros other Hne. rewrite (Hother other Hne).
      unfold sink_entry. cbn. rewrite Hp. by rewrite sink_append_other.
Qed.

(** C6.  Where offloading is not guarded off, [n] calls of the concretized
    offload function with the tensors [t1 .. tn] leave, under the module
    name of the hook, the list that was there followed by the [n] captured
    tensors in call order; nothing is overwritten, and the lists of the
    other modules are as they were.  Starting from no entry, the list holds
    exactly the [n] captured tensors. *)
Theorem C6_offload_accumulates (self : HookFunction) (w : world)
    (offload : offload_fn) (tensors : list Tensor) :
  _concretize_offload_function self w = Ok offload →
  is_Some (output_ptr (w_shared w)) →
  offload_guard (w_runtime w) = Ok true →
  ∃ dev w',
    offload_all offload tensors w = (Ok (), w')
    ∧ sink_entry (module_name self) w'
      = sink_entry (module_name self) w ++ (Captured dev <$> tensors)
    ∧ length (sink_entry (module_name self) w')
      = length (sink_entry (module_name self) w) + length tensors
    ∧ ∀ other, other ≠ module_name self →
               sink_entry other w' = sink_entry other w.
Proof.
  intros Hoffload Hptr Hguard.
  assert (∃ dev, offload = offload_with (Captured dev) (module_name self))
    as [dev ->].
  { unfold _concretize_offload_function in Hoffload.
    repeat case_bool_decide; simplify_eq; [by exists CPU|by exists GPU]. }
  destruct (offload_all_with (Captured dev) (module_name self) tensors w
              Hptr Hguard) as (w' & Hrun & Hentry & Hother).
  exists dev, w'. repeat split; try done.
  by rewrite Hentry, length_app, length_fmap.
Qed.

(** ** Disperse undoes collect *)

Lemma concat_length_uniform {A} (ls : list (list A)) (n : nat) :
  Forall (λ l, length l = n) ls → length (concat ls) = length ls * n.
Proof.
  induction 1 as [|l ls Hl _ IH]; simpl; [done|]. rewrite length_app. lia.
Qed.

(** The [r]-th block of a concatenation of blocks of [n] elements. *)
Lemma concat_block {A} (ls : list (list A)) (n r : nat) (c rest : list A) :
  Forall (λ l, length l = n) ls → ls !! r = Some c →
  take n (drop (r * n) (concat ls ++ rest)) = c.
Proof.
  intros Hls. revert r.
  induction Hls as [|l ls Hl _ IH]; intros r Hr; [done|].
  destruct r as [|r]; simpl in *.
  - simplify_eq. rewrite drop_0, <- app_assoc. by rewrite take_app_length'.
  - rewrite <- app_assoc, drop_app_add' by done. by apply IH.
Qed.

Lemma zip_with_replicate_l {A B} (f : nat → A → B) (n : nat) (l : list A) :
  zip_with f (replicate (length l) n) l = f n <$> l.
Proof. induction l as [|x l IH]; simpl; [done|by rewrite IH]. Qed.

(** Taking the [r]-th of the [length datas] pieces of every row of the
    concatenation gives back the [r]-th operand. *)
Lemma narrow_cat_rows (outer n : nat) :
  ∀ (datas : list (list Z)) (r : nat) (x : list Z),
    Forall (λ d, length d = outer * n) datas →
    datas !! r = Some x →
    narrow_rows outer (length datas * n) (r * n) n
      (cat_rows outer (replicate (length datas) n) datas)
    = x.
Proof.
  induction outer as [|outer IH]; intros datas r x Hlen Hr.
  - simpl. rewrite Forall_forall in Hlen.
    assert (length x = 0) as Hx.
    { apply (Hlen x). by eapply list_elem_of_lookup_2. }
    by destruct x.
  - cbn [narrow_rows cat_rows]. rewrite !zip_with_replicate_l.
    assert (Forall (λ l, length l = n) (take n <$> datas)) as Hblocks.
    { apply Forall_fmap. eapply Forall_impl; [exact Hlen|].
      intros d Hd. simpl in *. rewrite length_take. lia. }
    rewrite (concat_block _ n r (take n x)); [|done|by rewrite list_lookup_fmap, Hr].
    rewrite (drop_app_length' _ _ (length datas * n))
      by (by rewrite (concat_length_uniform _ n Hblocks), length_fmap).
    rewrite <- (length_fmap (drop n) datas) at 1 2.
    rewrite (IH (drop n <$> datas) r (drop n x)).
    + apply take_drop.
    + apply Forall_fmap. eapply Forall_impl; [exact Hlen|].
      intros d Hd. simpl in *. rewrite length_drop. lia.
    + by rewrite list_lookup_fmap, Hr.
Qed.

Lemma fmap_uniform {A B} (f : A → B) (c : B) (l : list A) :
  Forall (λ x, f x = c) l → f <$> l = replicate (length l) c.
Proof. induction 1 as [|x l Hx _ IH]; simpl; [done|by f_equal]. Qed.

Lemma prod_list_app (l k : list nat) :
  prod_list (l ++ k) = prod_list l * prod_list k.
Proof. induction l as [|x l IH]; simpl; [lia|]. rewrite IH. lia. Qed.

Lemma prod_list_split (shape : list nat) (axis d : nat) :
  shape !! axis = Some d →
  prod_list shape
  = prod_list (take axis shape) * (d * prod_list (drop (S axis) shape))
  ∧ prod_list (drop axis shape) = d * prod_list (drop (S axis) shape).
Proof.
  intros Hd. rewrite <- (take_drop axis shape) at 1.
  rewrite prod_list_app, (drop_S _ _ _ Hd). done.
Qed.

(** Concatenating the shards of a group along an axis and keeping the piece
    of a rank gives the shard of that rank. *)
Lemma tensor_piece_cat (axis rank : nat) (shards : list Tensor) (t : Tensor) :
  axis < length (t_shape t) →
  shards !! rank = Some t →
  Forall (λ shard, t_shape shard = t_shape t ∧ well_formed shard) shards →
  ∃ full, tensor_cat axis shards = Ok full
          ∧ tensor_piece axis (length shards) rank full = Ok t.
Proof.
  intros Haxis Hrank Hshards.
  destruct (lookup_lt_is_Some_2 (t_shape t) axis Haxis) as [d Hd].
  destruct (prod_list_split _ _ _ Hd) as [Hprod Hrow].
  set (inner := prod_list (drop (S axis) (t_shape t))) in *.
  assert (length shards ≠ 0) as Hsize.
  { apply lookup_lt_Some in Hrank. lia. }
  destruct shards as [|t0 rest] eqn:Heq; [done|]. rewrite <- Heq in *.
  assert (t_shape t0 = t_shape t) as Ht0.
  { rewrite Heq in Hshards. by apply Forall_cons_1 in Hshards as [[? _] _]. }
  eexists. split.
  - unfold tensor_cat. rewrite Heq at 1. rewrite bool_decide_true; [done|].
    split; [by rewrite Ht0|].
    eapply Forall_impl; [exact Hshards|]. intros s [Hs _]. simpl.
    by rewrite Hs, Ht0.
  - rewrite Ht0.
    rewrite (fmap_uniform (λ s, default 0 (t_shape s !! axis)) d)
      by (eapply Forall_impl; [exact Hshards|];
          intros s [Hs _]; simpl; by rewrite Hs, Hd).
    rewrite (fmap_uniform (λ s, prod_list (drop axis (t_shape s))) (d * inner))
      by (eapply Forall_impl; [exact Hshards|];
          intros s [Hs _]; simpl; by rewrite Hs).
    rewrite sum_list_replicate.
    unfold tensor_piece. cbn [t_shape t_data].
    rewrite list_lookup_insert_eq by done.
    rewrite bool_decide_true
      by (split; [done|]; rewrite Nat.mul_comm; apply Nat.Div0.mod_mul).
    rewrite (Nat.mul_comm (length shards) d), Nat.div_mul by done.
    rewrite list_insert_insert_eq, (list_insert_id _ _ _ Hd).
    rewrite take_insert_ge, drop_insert_lt by lia. fold inner.
    rewrite <- (length_fmap t_data shards).
    replace (d * length (t_data <$> shards) * inner)
      with (length (t_data <$> shards) * (d * inner)) by lia.
    replace (rank * d * inner) with (rank * (d * inner)) by lia.
    rewrite (narrow_cat_rows _ _ _ rank (t_data t)).
    + by destruct t.
    + apply Forall_fmap. eapply Forall_impl; [exact Hshards|].
      intros s [Hs Hwf]. simpl. unfold well_formed in Hwf.
      by rewrite Hwf, Hs, Hprod.
    + by rewrite list_lookup_fmap, Hrank.
Qed.

(** Transfer inverse: on a valid shard, collect returns and disperse gives
    the shard back. *)
Lemma collect_disperse_inverse (g : tp_group) (axis : nat) (t : Tensor) :
  valid_shard g axis t →
  ∃ full, all_gather_tensor_parallel g axis t = Ok full
          ∧ scatter_tensor_parallel g axis full = Ok t.
Proof.
  intros (Hwf & Haxis & Hgroup).
  unfold all_gather_tensor_parallel, scatter_tensor_parallel.
  destruct (tp_member g); [|by exists t].
  destruct (Hgroup eq_refl) as (Hlt & Hlen & Hrank & Hshards).
  rewrite <- Hlen. by apply tensor_piece_cat.
Qed.

(** ** The pipeline with the default editing function *)

Lemma offload_with_runs capture name t w :
  is_Some (output_ptr (w_shared w)) →
  (∃ b, offload_guard (w_runtime w) = Ok b) →
  ∃ w', offload_with capture name t w = (Ok (), w')
        ∧ w_runtime w' = w_runtime w
        ∧ is_Some (output_ptr (w_shared w')).
Proof.
  intros [p Hp] [b Hb]. unfold offload_with. rewrite Hp, Hb.
  destruct b; eexists; (split; [done|]); split; try done; by eexists.
Qed.

Lemma ready_transfer axes s t :
  identity_pipeline_ready axes s →
  Forall (λ axis, valid_shard (rt_tp (w_runtime s.2)) axis t) axes →
  ∃ collect disperse full,
    _collect s.1 = Some collect ∧ _disperse s.1 = Some disperse
    ∧ collect t = Ok full ∧ disperse full = Ok t.
Proof.
  intros (Htransfer & _) Hvalid.
  destruct axes as [|axis [|? ?]]; [| |done].
  - destruct Htransfer as [-> ->]. by exists unity, unity, t.
  - destruct Htransfer as [-> ->].
    apply Forall_cons_1 in Hvalid as [Hvalid _].
    destruct (collect_disperse_inverse _ _ _ Hvalid) as (full & Hc & Hd).
    by eexists _, _, full.
Qed.

(** The four calls, on a hook that is ready: the tensor comes back. *)
Lemma ready_calls axes self w module t :
  identity_pipeline_ready axes (self, w) →
  Forall (λ axis, valid_shard (rt_tp (w_runtime w)) axis t) axes →
  ∃ w', collect_offload_edit_disperse module t (self, w) = (Ok t, (self, w'))
        ∧ identity_pipeline_ready axes (self, w').
Proof.
  intros Hready Hvalid.
  destruct (ready_transfer _ _ _ Hready Hvalid)
    as (collect & disperse & full & Hc & Hd & Hcollect & Hdisperse).
  destruct Hready as (Htransfer & Hedit & [dev Hoffload] & Hptr & Hguard).
  cbn [fst snd] in *.
  destruct (offload_with_runs (Captured dev) (module_name self) full w
              Hptr Hguard) as (w1 & Hrun & Hrt & Hptr1).
  exists (set_save_ctx (save_ctx (w_shared w1)) w1). split.
  - unfold collect_offload_edit_disperse, bind, get_self. cbn [fst snd].
    rewrite Hc, Hd, Hedit, Hoffload.
    unfold call_transfer, call_offload, call_edit, lift, on_world.
    cbn [fst snd]. rewrite Hcollect, Hrun.
    unfold default_editing_function. by rewrite Hdisperse.
  - unfold identity_pipeline_ready. cbn [fst snd set_save_ctx w_runtime
      w_shared output_ptr]. rewrite Hrt.
    repeat split; try done. by exists dev.
Qed.

Lemma ready_check axes self w t :
  identity_pipeline_ready axes (self, w) →
  check_runtime_functions t (self, w) = (Ok (), (self, w)).
Proof.
  intros (_ & Hedit & _). apply check_runtime_functions_some_set.
  cbn [fst] in Hedit. rewrite Hedit. simpl. by rewrite !andb_false_r.
Qed.

Lemma ready_pipeline axes self w module t :
  identity_pipeline_ready axes (self, w) →
  Forall (λ axis, valid_shard (rt_tp (w_runtime w)) axis t) axes →
  ∃ w', _template_handle_tensor module t (self, w) = (Ok t, (self, w'))
        ∧ identity_pipeline_ready axes (self, w').
Proof.
  intros Hready Hvalid.
  destruct (ready_calls _ _ _ module _ Hready Hvalid) as (w' & Hrun & Hready').
  exists w'. split; [|done].
  unfold _template_handle_tensor, bind.
  rewrite (ready_check _ _ _ _ Hready), Hrun. by rewrite bool_decide_true.
Qed.

(** The first call: the runtime functions get set. *)
Lemma fresh_check name expected idx w t :
  let axes := differing_axes 0 (t_shape t) expected in
  length axes ≤ 1 →
  offload_mode (w_shared w) = "CPU" ∨ offload_mode (w_shared w) = "GPU" →
  is_Some (output_ptr (w_shared w)) →
  (∃ b, offload_guard (w_runtime w) = Ok b) →
  ∃ self1,
    check_runtime_functions t (HookFunction_init name expected None idx, w)
    = (Ok (), (self1, w))
    ∧ identity_pipeline_ready axes (self1, w).
Proof.
  intros axes Haxes Hmode Hptr Hguard.
  unfold check_runtime_functions, _concretize_functions, bind, get_self,
    get_world, lift, on_self, HookFunction_init.
  cbn [fst snd _collect _disperse _edit _offload is_None forallb id andb
       expected_shape].
  unfold parse_collect_and_distribute_from_tensor. fold axes.
  unfold _concretize_offload_function.
  destruct axes as [|axis [|? ?]] eqn:Heq; [| |simpl in Haxes; lia].
  - destruct Hmode as [-> | ->]; simpl; eexists; (split; [done|]);
      unfold identity_pipeline_ready; simpl; repeat split; eauto.
  - destruct Hmode as [-> | ->]; simpl; eexists; (split; [done|]);
      unfold identity_pipeline_ready; simpl; repeat split; eauto.
Qed.

(** C4.  Disperse is the inverse of collect on every valid shard, for any
    size of the tensor-parallel group; hence, with the default editing
    function, the first call of the tensor pipeline on a valid shard sets
    the runtime functions and returns the input tensor itself, and so does
    every later call: the pipeline leaves the hook ready, and from a ready
    hook it returns its input and leaves the hook ready. *)
Theorem C4_default_edit_returns_input (name : string)
    (expected : list (option nat)) (idx : Z) (module : module_handle)
    (t : Tensor) (w : world) :
  let g := rt_tp (w_runtime w) in
  let axes := differing_axes 0 (t_shape t) expected in
  length axes ≤ 1 →
  Forall (λ axis, valid_shard g axis t) axes →
  offload_mode (w_shared w) = "CPU" ∨ offload_mode (w_shared w) = "GPU" →
  is_Some (output_ptr (w_shared w)) →
  (∃ b, offload_guard (w_runtime w) = Ok b) →
  (∀ g' axis t', valid_shard g' axis t' →
     ∃ full, all_gather_tensor_parallel g' axis t' = Ok full
             ∧ scatter_tensor_parallel g' axis full = Ok t')
  ∧ (∃ self1 w1,
       _template_handle_tensor module t
         (HookFunction_init name expected None idx, w)
       = (Ok t, (self1, w1))
       ∧ identity_pipeline_ready axes (self1, w1))
  ∧ (∀ self' w' module' t',
       identity_pipeline_ready axes (self', w') →
       Forall (λ axis, valid_shard (rt_tp (w_runtime w')) axis t') axes →
       ∃ w'', _template_handle_tensor module' t' (self', w')
              = (Ok t', (self', w''))
              ∧ identity_pipeline_ready axes (self', w'')).
Proof.
  intros g axes Haxes Hvalid Hmode Hptr Hguard. split; [|split].
  - intros g' axis t'. apply collect_disperse_inverse.
  - destruct (fresh_check name expected idx w t Haxes Hmode Hptr Hguard)
      as (self1 & Hcheck & Hready).
    destruct (ready_calls _ _ _ module _ Hready Hvalid)
      as (w1 & Hrun & Hready1).
    exists self1, w1. split; [|done].
    unfold _template_handle_tensor, bind. rewrite Hcheck, Hrun.
    by rewrite bool_decide_true.
  - intros self' w' module' t'. apply ready_pipeline.
Qed.

(** ** Initialising the backend *)

Lemma _parse_backend_returns rt : ∃ cls, _parse_backend rt = Ok cls.
Proof.
  unfold _parse_backend.
  destruct (torch_distributed_is_initialized rt),
    (partial_state_distributed_type rt); simpl; eauto.
Qed.

(** C7.  [initialize_distributed_backend] succeeds iff the world size is
    the product of the three parallel sizes.  When it is, a backend built
    on the mesh of these sizes becomes the active backend; when it is not,
    the call fails with the assertion error and the process state,
    the active backend included, is as it was. *)
Theorem C7_mesh_validity (world_size tp pp dp : Z) (rt : runtime) :
  ((initialize_distributed_backend world_size tp pp dp rt).1 = Ok ()
   ↔ world_size = (tp * pp * dp)%Z)
  ∧ (world_size = (tp * pp * dp)%Z →
     ∃ backend,
       initialize_distributed_backend world_size tp pp dp rt
       = (Ok (), set_active_backend (Some backend) rt)
       ∧ backend_mesh backend = DeviceMesh world_size tp pp dp
       ∧ distributed_backend_is_initialized
           (set_active_backend (Some backend) rt) = true)
  ∧ (world_size ≠ (tp * pp * dp)%Z →
     initialize_distributed_backend world_size tp pp dp rt
     = (Err MeshAssertionError, rt)).
Proof.
  unfold initialize_distributed_backend, GPUDeviceMesh_build.
  destruct (_parse_backend_returns rt) as [cls ->].
  case_bool_decide as Hsize; cbn [negb].
  - split; [done|]. split; [|done]. intros _. by eexists.
  - split; [split; [done|by intros ?]|]. split; [done|done].
Qed.

Lemma C7_mesh_validity_witness :
  (∃ backend,
     initialize_distributed_backend 8 2 2 2
       (Runtime true NO None (TpGroup 2 0 true (λ t, [t; t])))
     = (Ok (), set_active_backend (Some backend)
                 (Runtime true NO None (TpGroup 2 0 true (λ t, [t; t]))))
     ∧ backend_mesh backend = DeviceMesh 8 2 2 2
     ∧ distributed_backend_is_initialized
         (set_active_backend (Some backend)
            (Runtime true NO None (TpGroup 2 0 true (λ t, [t; t])))) = true)
  ∧ initialize_distributed_backend 8 2 2 3
      (Runtime true NO None (TpGroup 2 0 true (λ t, [t; t])))
    = (Err MeshAssertionError,
       Runtime true NO None (TpGroup 2 0 true (λ t, [t; t]))).
Proof.
  split.
  - apply (C7_mesh_validity 8 2 2 2). reflexivity.
  - apply (C7_mesh_validity 8 2 2 3). lia.
Defined.

(** ** Instances on concrete inputs *)

Lemma C3_shape_mismatch_is_an_error_witness :
  _template_handle_tensor None Example.ta
    (Example.reshaping_hook, Example.session)
  = (Err ShapeMismatchError,
     (collect_offload_edit_disperse None Example.ta
        (check_runtime_functions Example.ta
           (Example.reshaping_hook, Example.session)).2).2).
Proof.
  apply (proj2 (C3_shape_mismatch_is_an_error None Example.ta
                  (Example.reshaping_hook, Example.session))
               (check_runtime_functions Example.ta
                  (Example.reshaping_hook, Example.session)).2
               (mkTensor [1] [0%Z])).
  - reflexivity.
  - reflexivity.
  - simpl. discriminate.
Defined.

Lemma C6_offload_accumulates_witness :
  ∃ dev w',
    offload_all (_offload_tensor_to_cpu Example.hook)
      [Example.ta; Example.tb] Example.session
    = (Ok (), w')
    ∧ sink_entry "layers.0" w'
      = sink_entry "layers.0" Example.session
        ++ (Captured dev <$> [Example.ta; Example.tb])
    ∧ length (sink_entry "layers.0" w')
      = length (sink_entry "layers.0" Example.session) + 2
    ∧ ∀ other, other ≠ "layers.0" →
               sink_entry other w' = sink_entry other Example.session.
Proof.
  apply (C6_offload_accumulates Example.hook Example.session
           (_offload_tensor_to_cpu Example.hook)
           [Example.ta; Example.tb]).
  - reflexivity.
  - eexists. reflexivity.
  - reflexivity.
Defined.

(** A shard of shape [2; 2] of a full tensor of shape [2; 4], on rank 0 of
    two. *)
Lemma C4_default_edit_returns_input_witness :
  ∃ self1 w1,
    _template_handle_tensor None Example.ta
      (HookFunction_init "layers.0" [None; Some 4] None 0,
       Example.sharded_session)
    = (Ok Example.ta, (self1, w1)).
Proof.
  destruct (C4_default_edit_returns_input "layers.0" [None; Some 4] 0 None
              Example.ta Example.sharded_session)
    as (_ & (self1 & w1 & Hrun & _) & _).
  - simpl. lia.
  - repeat constructor; simpl; lia.
  - right. reflexivity.
  - eexists. reflexivity.
  - eexists. reflexivity.
  - exists self1, w1. exact Hrun.
Defined.

(** * Further properties of the code *)

(** ** The tree codec *)

Lemma mapM_flatten (items : list pyobj) :
  mapM _flatten items = Ok ((λ x, (node_of x, leaves_of x)) <$> items).
Proof.
  induction items as [|x items IH]; [done|].
  cbn [mapM fmap list_fmap]. rewrite _flatten_eq. cbn [mbind result_bind].
  fold (mapM _flatten items). rewrite IH. done.
Qed.

Lemma fmap_pair_fst {A B C} (f : A → B) (g : A → C) (l : list A) :
  ((λ x, (f x, g x)) <$> l).*1 = f <$> l.
Proof. induction l as [|x l IH]; simpl; [done|by f_equal]. Qed.

Lemma fmap_pair_snd {A B C} (f : A → B) (g : A → C) (l : list A) :
  ((λ x, (f x, g x)) <$> l).*2 = g <$> l.
Proof. induction l as [|x l IH]; simpl; [done|by f_equal]. Qed.

(** X1.  [_flatten] is compositional.  A tensor is one leaf node carrying
    its shape and one leaf; a scalar is its own node and no leaf; a tuple,
    a list or a [BaseModelOutputWithPast] is a node of its class whose
    children are the templates of its items (its four fields) in order and
    whose leaves are the leaves of the items, concatenated in that order. *)
Theorem flatten_compositional :
  (∀ t, _flatten (OTensor t) = Ok (NLeaf (t_shape t), [OTensor t]))
  ∧ (∀ s, _flatten (OScalar s) = Ok (NScalar s, []))
  ∧ (∀ items, ∃ parts,
       mapM _flatten items = Ok parts
       ∧ _flatten (OTuple items)
         = Ok (NInternal TupleNode parts.*1, concat parts.*2)
       ∧ _flatten (OList items)
         = Ok (NInternal ListNode parts.*1, concat parts.*2))
  ∧ (∀ a b c d, ∃ parts,
       mapM _flatten [a; b; c; d] = Ok parts
       ∧ _flatten (OBaseModelOutputWithPast a b c d)
         = Ok (NInternal BaseModelOutputWithPastNode parts.*1,
               concat parts.*2)).
Proof.
  split; [done|]. split; [done|]. split.
  - intros items. eexists. split; [apply mapM_flatten|].
    rewrite !_flatten_eq, fmap_pair_fst, fmap_pair_snd. done.
  - intros a b c d. eexists. split; [apply mapM_flatten|].
    rewrite _flatten_eq, fmap_pair_fst, fmap_pair_snd.
    simpl. by rewrite app_nil_r.
Qed.

(** X2.  [_flatten] is injective: two objects with the same template and
    the same leaves are the same object. *)
Theorem flatten_injective (x y : pyobj) :
  _flatten x = _flatten y → x = y.
Proof.
  rewrite !_flatten_eq. intros [= Hnode Hleaves].
  by apply node_leaves_injective.
Qed.

Lemma flatten_injective_witness :
  OTuple [OTensor Example.ta; OScalar SNone]
  = OTuple [OTensor Example.ta; OScalar SNone].
Proof. apply flatten_injective. reflexivity. Defined.

(** What [_unflatten_dfs] does on a template depends on as many objects of
    the stack as the template has leaf nodes, and leaves the rest of the
    stack: the object it returns, or the error it raises, is the same
    whatever lies below them.  On a template without a
    [BaseModelOutputWithPast] node it returns. *)
Lemma unflatten_dfs_prefix (n : node) :
  ∀ ls, length ls = count_leaf_nodes n →
  ∃ r : result pyobj,
    (∀ more, _unflatten_dfs n (reverse (ls ++ more))
             = (y ← r; Ok (y, reverse more)))
    ∧ (no_model_output_node n = true → ∃ y, r = Ok y).
Proof.
  assert (Hchildren : ∀ cs,
    Forall (λ c, ∀ ls, length ls = count_leaf_nodes c →
      ∃ r : result pyobj,
        (∀ more, _unflatten_dfs c (reverse (ls ++ more))
                 = (y ← r; Ok (y, reverse more)))
        ∧ (no_model_output_node c = true → ∃ y, r = Ok y)) cs →
    ∀ ls, length ls = sum_list (count_leaf_nodes <$> cs) →
    ∃ rs : result (list pyobj),
      (∀ more, unflatten_children _unflatten_dfs cs (reverse (ls ++ more))
               = (ys ← rs; Ok (ys, reverse more)))
      ∧ (forallb no_model_output_node cs = true → ∃ ys, rs = Ok ys)).
  { induction 1 as [|c cs Hc _ IH]; intros ls Hlen.
    - destruct ls; [|done]. exists (Ok []). split; [done|by eexists].
    - change (length ls
              = count_leaf_nodes c + sum_list (count_leaf_nodes <$> cs))
        in Hlen.
      destruct (Hc (take (count_leaf_nodes c) ls)) as (r & Hr & Hok).
      { rewrite length_take. lia. }
      destruct (IH (drop (count_leaf_nodes c) ls)) as (rs & Hrs & Hoks).
      { rewrite length_drop. lia. }
      exists (y ← r; ys ← rs; Ok (y :: ys)). split.
      + intros more. cbn [unflatten_children].
        rewrite <- (take_drop (count_leaf_nodes c) ls) at 1.
        rewrite <- app_assoc, Hr.
        destruct r as [y|e]; cbn [mbind result_bind]; [|done].
        rewrite Hrs. by destruct rs.
      + cbn [forallb]. intros [Hc1 Hcs1]%andb_true_iff.
        destruct (Hok Hc1) as [y ->]. destruct (Hoks Hcs1) as [ys ->].
        by eexists. }
  induction n as [cls children IH|val|s] using node_forall_ind;
    intros ls Hlen; cbn [count_leaf_nodes] in Hlen.
  - destruct (Hchildren children IH ls Hlen) as (rs & Hrs & Hoks).
    exists (ys ← rs; node_unflatten cls ys). split.
    + intros more. cbn [_unflatten_dfs]. rewrite Hrs.
      destruct rs as [ys|e]; cbn [mbind result_bind]; [|done].
      by destruct (node_unflatten cls ys).
    + intros Hno.
      assert (forallb no_model_output_node children = true) as Hall
        by (by destruct cls).
      destruct (Hoks Hall) as [ys ->]. cbn [mbind result_bind].
      destruct cls; [by eexists..|done].
  - destruct ls as [|l [|? ?]]; try done.
    exists (Ok l). split; [|by eexists].
    intros more. apply list_pop_reverse.
  - destruct ls; [|done]. exists (Ok (OScalar s)). split; [done|by eexists].
Qed.

Lemma list_pop_nil : list_pop [] = Err PopFromEmptyListError.
Proof. done. Qed.

(** With fewer objects than the template has leaf nodes, [_unflatten_dfs]
    raises; on a template without a [BaseModelOutputWithPast] node the
    error is the one of [leaves.pop()]. *)
Lemma unflatten_dfs_too_few (n : node) :
  ∀ ls, length ls < count_leaf_nodes n →
  ∃ e, _unflatten_dfs n (reverse ls) = Err e
       ∧ (no_model_output_node n = true → e = PopFromEmptyListError).
Proof.
  assert (Hchildren : ∀ cs,
    Forall (λ c, ∀ ls, length ls < count_leaf_nodes c →
      ∃ e, _unflatten_dfs c (reverse ls) = Err e
           ∧ (no_model_output_node c = true → e = PopFromEmptyListError)) cs →
    ∀ ls, length ls < sum_list (count_leaf_nodes <$> cs) →
    ∃ e, unflatten_children _unflatten_dfs cs (reverse ls) = Err e
         ∧ (forallb no_model_output_node cs = true
            → e = PopFromEmptyListError)).
  { induction 1 as [|c cs Hc _ IH]; intros ls Hlen; [simpl in Hlen; lia|].
    change (length ls
            < count_leaf_nodes c + sum_list (count_leaf_nodes <$> cs))
      in Hlen.
    cbn [unflatten_children forallb].
    destruct (decide (length ls < count_leaf_nodes c)) as [Hshort|Hlong].
    - destruct (Hc ls Hshort) as (e & -> & He). exists e. split; [done|].
      intros [Hc1 _]%andb_true_iff. auto.
    - destruct (unflatten_dfs_prefix c (take (count_leaf_nodes c) ls))
        as (r & Hr & Hok); [rewrite length_take; lia|].
      assert (_unflatten_dfs c (reverse ls)
              = (y ← r; Ok (y, reverse (drop (count_leaf_nodes c) ls))))
        as ->.
      { rewrite <- (take_drop (count_leaf_nodes c) ls) at 1. apply Hr. }
      destruct r as [y|e]; cbn [mbind result_bind].
      + destruct (IH (drop (count_leaf_nodes c) ls)) as (e & -> & He).
        { rewrite length_drop. lia. }
        exists e. split; [done|]. intros [_ Hcs1]%andb_true_iff. auto.
      + exists e. split; [done|]. intros [Hc1 _]%andb_true_iff.
        by destruct (Hok Hc1). }
  induction n as [cls children IH|val|s] using node_forall_ind;
    intros ls Hlen; cbn [count_leaf_nodes] in Hlen.
  - destruct (Hchildren children IH ls Hlen) as (e & He & Hpop).
    exists e. cbn [_unflatten_dfs]. rewrite He. split; [done|].
    intros Hno. apply Hpop. by destruct cls.
  - destruct ls; [|simpl in Hlen; lia]. by exists PopFromEmptyListError.
  - lia.
Qed.

(** X3.  [_unflatten] with fewer leaves than the template has leaf nodes
    never returns an object: it raises, and on a template without a
    [BaseModelOutputWithPast] node the error is the IndexError of
    [leaves.pop()]. *)
Theorem unflatten_too_few_leaves (template : node) (ls : list pyobj) :
  length ls < count_leaf_nodes template →
  ∃ e, _unflatten template ls = Err e
       ∧ (no_model_output_node template = true
          → e = PopFromEmptyListError).
Proof.
  intros Hlen. destruct (unflatten_dfs_too_few template ls Hlen) as (e & He & Hpop).
  exists e. unfold _unflatten. by rewrite He.
Qed.

Lemma unflatten_too_few_leaves_witness :
  ∃ e,
    _unflatten (NInternal TupleNode
                  [NLeaf [2; 2]; NScalar SNone; NInternal ListNode [NLeaf [2; 2]]])
               [OTensor Example.ta]
    = Err e
    ∧ (no_model_output_node
         (NInternal TupleNode
            [NLeaf [2; 2]; NScalar SNone; NInternal ListNode [NLeaf [2; 2]]])
       = true
       → e = PopFromEmptyListError).
Proof.
  apply (unflatten_too_few_leaves
           (NInternal TupleNode
              [NLeaf [2; 2]; NScalar SNone; NInternal ListNode [NLeaf [2; 2]]])
           [OTensor Example.ta]).
  simpl. lia.
Defined.

Lemma unflatten_extra_leaves (template : node) (ls : list pyobj) :
  count_leaf_nodes template ≤ length ls →
  ∃ r : result pyobj,
    (∀ more, _unflatten template (ls ++ more) = r)
    ∧ (no_model_output_node template = true → ∃ y, r = Ok y).
Proof.
  intros Hlen.
  destruct (unflatten_dfs_prefix template (take (count_leaf_nodes template) ls))
    as (r & Hr & Hok); [rewrite length_take; lia|].
  exists r. split; [|done].
  intros more. unfold _unflatten.
  rewrite <- (take_drop (count_leaf_nodes template) ls) at 1.
  rewrite <- app_assoc, Hr. by destruct r.
Qed.

(** X4.  [_unflatten] ignores the leaves it does not need: with at least
    as many objects as the template has leaf nodes, more objects after
    them change neither the object returned nor the error raised; and on a
    template without a [BaseModelOutputWithPast] node it returns, whatever
    the objects are. *)
Theorem unflatten_ignores_extra_leaves (template : node)
    (ls extra : list pyobj) :
  count_leaf_nodes template ≤ length ls →
  _unflatten template (ls ++ extra) = _unflatten template ls
  ∧ (no_model_output_node template = true
     → ∃ y, _unflatten template ls = Ok y).
Proof.
  intros Hlen.
  destruct (unflatten_extra_leaves template ls Hlen) as (r & Hrun & Hok).
  split.
  - by rewrite Hrun, <- (Hrun []), app_nil_r.
  - intros Hno. destruct (Hok Hno) as [y ->]. exists y.
    rewrite <- (app_nil_r ls). apply Hrun.
Qed.

Lemma unflatten_ignores_extra_leaves_witness :
  _unflatten (NInternal TupleNode
                [NLeaf [2; 2]; NScalar SNone; NInternal ListNode [NLeaf [2; 2]]])
             ([OScalar (SInt 1); OTuple []] ++ [OTensor Example.ta])
  = _unflatten (NInternal TupleNode
                  [NLeaf [2; 2]; NScalar SNone; NInternal ListNode [NLeaf [2; 2]]])
               [OScalar (SInt 1); OTuple []]
  ∧ (no_model_output_node
       (NInternal TupleNode
          [NLeaf [2; 2]; NScalar SNone; NInternal ListNode [NLeaf [2; 2]]])
     = true
     → ∃ y,
         _unflatten (NInternal TupleNode
                       [NLeaf [2; 2]; NScalar SNone;
                        NInternal ListNode [NLeaf [2; 2]]])
                    [OScalar (SInt 1); OTuple []]
         = Ok y).
Proof.
  apply (unflatten_ignores_extra_leaves
           (NInternal TupleNode
              [NLeaf [2; 2]; NScalar SNone; NInternal ListNode [NLeaf [2; 2]]])
           [OScalar (SInt 1); OTuple []] [OTensor Example.ta]).
  simpl. lia.
Defined.

Lemma first_not_none_leaves (items : list pyobj) :
  Forall (λ c, _recursively_find_first_tensor c
               = default (OScalar SNone) (head (leaves_of c))) items →
  first_not_none _recursively_find_first_tensor items
  = default (OScalar SNone) (head (concat (leaves_of <$> items))).
Proof.
  induction 1 as [|c cs Hc _ IH]; [done|].
  cbn [first_not_none fmap list_fmap concat]. rewrite Hc.
  pose proof (leaves_of_tensors c) as Htensors.
  destruct (leaves_of c) as [|leaf rest]; [exact IH|].
  apply Forall_cons_1 in Htensors as [[t ->] _]. done.
Qed.

(** X5.  On an object made of tuples, lists, tensors and scalars,
    [_recursively_find_first_tensor] returns the first leaf that [_flatten]
    lists, and [None] when there is no leaf. *)
Theorem first_tensor_is_first_leaf (x : pyobj) (template : node)
    (leaves : list pyobj) :
  no_model_output x = true →
  _flatten x = Ok (template, leaves) →
  _recursively_find_first_tensor x = default (OScalar SNone) (head leaves).
Proof.
  rewrite _flatten_eq. intros Hx [= _ <-]. clear template. revert Hx.
  induction x as [t|items IH|items IH|a b c d IHa IHb IHc IHd|s]
    using pyobj_forall_ind; intros Hx; try done.
  - cbn [_recursively_find_first_tensor leaves_of].
    apply first_not_none_leaves. cbn [no_model_output] in Hx.
    rewrite forallb_forall in Hx. rewrite Forall_forall in IH.
    apply Forall_forall. intros c Hc. apply IH; [done|].
    apply Hx. by apply list_elem_of_In.
  - cbn [_recursively_find_first_tensor leaves_of].
    apply first_not_none_leaves. cbn [no_model_output] in Hx.
    rewrite forallb_forall in Hx. rewrite Forall_forall in IH.
    apply Forall_forall. intros c Hc. apply IH; [done|].
    apply Hx. by apply list_elem_of_In.
Qed.

Lemma first_tensor_is_first_leaf_witness :
  _recursively_find_first_tensor
    (OTuple [OScalar SNone; OList [OTensor Example.tb]; OTensor Example.ta])
  = default (OScalar SNone)
            (head [OTensor Example.tb; OTensor Example.ta]).
Proof.
  apply (first_tensor_is_first_leaf _
           (NInternal TupleNode
              [NScalar SNone; NInternal ListNode [NLeaf [2; 2]]; NLeaf [2; 2]])).
  - reflexivity.
  - reflexivity.
Defined.


(** ** Unpacking and repacking *)

Lemma repack_selected_leaf (self : HookFunction) (x : pyobj)
    (template : node) (leaves : list pyobj) :
  model_outputs_plain x = true →
  flatten x = Ok (template, leaves) →
  (- Z.of_nat (length leaves) ≤ unpack_idx self < Z.of_nat (length leaves))%Z →
  ∃ leaf repack,
    _unpack_layer_outputs self x = Ok (leaf, repack)
    ∧ py_index leaves (unpack_idx self) = Some leaf
    ∧ repack leaf = Ok x.
Proof.
  intros Hplain [-> ->]%flatten_inv Hrange.
  destruct (py_index_in_range _ _ Hrange) as [Hlookup Hpos].
  destruct (lookup_lt_is_Some_2 _ _ Hpos) as [leaf Hleaf].
  rewrite Hleaf in Hlookup.
  destruct (py_slices_replace (leaves_of x) (unpack_idx self) leaf Hrange)
    as [extra Hslices].
  rewrite (list_insert_id _ _ _ Hleaf) in Hslices.
  eexists leaf, _. split; [|split; [done|]].
  - by rewrite _unpack_layer_outputs_eq, Hlookup.
  - cbn beta. rewrite Hslices. unfold unflatten, _unflatten.
    by rewrite unflatten_dfs_roundtrip.
Qed.

(** X7.  Repacking the tensor that unpacking selected gives back the layer
    outputs, for every unpack index in range, negative ones included, when
    every [BaseModelOutputWithPast] in the outputs holds a tensor as its
    [last_hidden_state] or has another field that is not [None]. *)
Theorem unpack_repack_roundtrip (self : HookFunction) (x : pyobj)
    (template : node) (leaves : list pyobj) :
  model_outputs_plain x = true →
  flatten x = Ok (template, leaves) →
  (- Z.of_nat (length leaves) ≤ unpack_idx self < Z.of_nat (length leaves))%Z →
  ∃ leaf repack,
    _unpack_layer_outputs self x = Ok (leaf, repack)
    ∧ py_index leaves (unpack_idx self) = Some leaf
    ∧ repack leaf = Ok x.
Proof. apply repack_selected_leaf. Qed.

Lemma unpack_repack_roundtrip_witness :
  ∃ leaf repack,
    _unpack_layer_outputs Example.hook Example.model_outputs
    = Ok (leaf, repack)
    ∧ py_index [OTensor Example.ta; OTensor Example.ta; OTensor Example.tb]
        (-1)
      = Some leaf
    ∧ repack leaf = Ok Example.model_outputs.
Proof.
  apply (unpack_repack_roundtrip Example.hook Example.model_outputs
           (NInternal BaseModelOutputWithPastNode
              [NLeaf [2; 2]; NScalar SNone;
               NInternal TupleNode [NLeaf [2; 2]; NLeaf [2; 2]];
               NScalar SNone])).
  - reflexivity.
  - reflexivity.
  - simpl. lia.
Defined.

(** X8.  When the tensor pipeline returns the selected tensor as it was,
    the handling of the layer outputs returns the layer outputs as they
    were, when every [BaseModelOutputWithPast] in them holds a tensor as
    its [last_hidden_state] or has another field that is not [None]. *)
Theorem unedited_tensor_returns_outputs (self : HookFunction)
    (module : module_handle) (x : pyobj) (w : world) (template : node)
    (leaves : list pyobj) (t : Tensor) (s' : hstate) :
  model_outputs_plain x = true →
  flatten x = Ok (template, leaves) →
  py_index leaves (unpack_idx self) = Some (OTensor t) →
  _template_handle_tensor module t (self, w) = (Ok t, s') →
  _template_handle_layer_outputs module x (self, w) = (Ok x, s').
Proof.
  intros Hplain Hflat Hleaf Hrun.
  pose proof Hflat as [-> ->]%flatten_inv.
  pose proof (py_index_Some_in_range _ _ _ Hleaf) as Hrange.
  destruct (repack_selected_leaf self x _ _ Hplain Hflat Hrange)
    as (leaf & repack & Hunpack & Hleaf' & Hrepack).
  rewrite Hleaf in Hleaf'. simplify_eq.
  unfold _template_handle_layer_outputs, bind, get_self, lift. cbn [fst snd].
  rewrite Hunpack. unfold ret. by rewrite Hrun, Hrepack.
Qed.

Lemma unedited_tensor_returns_outputs_witness :
  _template_handle_layer_outputs None Example.outputs
    (Example.hook, Example.session)
  = (Ok Example.outputs,
     (_template_handle_tensor None Example.tb
        (Example.hook, Example.session)).2).
Proof.
  apply (unedited_tensor_returns_outputs Example.hook None Example.outputs
           Example.session
           (NInternal TupleNode
              [NLeaf [2; 2]; NScalar SNone; NInternal ListNode [NLeaf [2; 2]]])
           [OTensor Example.ta; OTensor Example.tb] Example.tb).
  - reflexivity.
  - reflexivity.
  - reflexivity.
  - reflexivity.
Defined.

(** X9.  A negative unpack index counts from the end: with [n] leaves, the
    indices [i] and [n + i], for [-n <= i < 0], select the same tensor, and
    the two repack functions return the same container for every edited
    tensor, also for [i = -1], where the leaves held aside on the right are
    the whole list. *)
Theorem negative_index_counts_from_the_end (self1 self2 : HookFunction)
    (x : pyobj) (template : node) (leaves : list pyobj) :
  flatten x = Ok (template, leaves) →
  (- Z.of_nat (length leaves) ≤ unpack_idx self1 < 0)%Z →
  unpack_idx self2 = (Z.of_nat (length leaves) + unpack_idx self1)%Z →
  ∃ leaf repack1 repack2,
    _unpack_layer_outputs self1 x = Ok (leaf, repack1)
    ∧ _unpack_layer_outputs self2 x = Ok (leaf, repack2)
    ∧ (∀ edited, repack1 edited = repack2 edited)
    ∧ (unpack_idx self1 = (-1)%Z →
       py_slice_from leaves (unpack_idx self1 + 1) = leaves).
Proof.
  intros [-> ->]%flatten_inv Hneg Hidx2.
  set (n := length (leaves_of x)) in *.
  assert (- Z.of_nat n ≤ unpack_idx self1 < Z.of_nat n)%Z as Hr1 by lia.
  assert (- Z.of_nat n ≤ unpack_idx self2 < Z.of_nat n)%Z as Hr2 by lia.
  destruct (py_index_in_range (leaves_of x) _ Hr1) as [Hl1 Hpos].
  destruct (py_index_in_range (leaves_of x) _ Hr2) as [Hl2 _].
  fold n in Hl1, Hl2, Hpos.
  assert (py_position n (unpack_idx self2) = py_position n (unpack_idx self1))
    as Hsame.
  { unfold py_position. repeat case_bool_decide; lia. }
  rewrite Hsame in Hl2.
  destruct (lookup_lt_is_Some_2 _ _ Hpos) as [leaf Hleaf].
  eexists leaf, _, _. split; [|split; [|split]].
  - by rewrite _unpack_layer_outputs_eq, Hl1, Hleaf.
  - by rewrite _unpack_layer_outputs_eq, Hl2, Hleaf.
  - intros edited. cbn beta.
    destruct (py_slices_replace (leaves_of x) (unpack_idx self1) edited Hr1)
      as [extra1 ->].
    destruct (py_slices_replace (leaves_of x) (unpack_idx self2) edited Hr2)
      as [extra2 ->].
    fold n. rewrite Hsame.
    destruct (unflatten_extra_leaves (node_of x)
                (<[py_position n (unpack_idx self1):=edited]> (leaves_of x)))
      as (r & Hr & _).
    { by rewrite length_insert, count_leaf_nodes_node_of. }
    unfold unflatten. by rewrite !Hr.
  - intros ->. unfold py_slice_from, py_bound.
    rewrite bool_decide_false by lia.
    replace (Z.to_nat ((-1 + 1) `min` Z.of_nat (length (leaves_of x))))
      with 0 by lia.
    apply drop_0.
Qed.

Lemma negative_index_counts_from_the_end_witness :
  ∃ leaf repack1 repack2,
    _unpack_layer_outputs Example.hook Example.outputs = Ok (leaf, repack1)
    ∧ _unpack_layer_outputs (HookFunction_init "layers.0" [None; None] None 1)
        Example.outputs
      = Ok (leaf, repack2)
    ∧ (∀ edited, repack1 edited = repack2 edited)
    ∧ (unpack_idx Example.hook = (-1)%Z →
       py_slice_from [OTensor Example.ta; OTensor Example.tb]
         (unpack_idx Example.hook + 1)
       = [OTensor Example.ta; OTensor Example.tb]).
Proof.
  apply (negative_index_counts_from_the_end Example.hook
           (HookFunction_init "layers.0" [None; None] None 1) Example.outputs
           (NInternal TupleNode
              [NLeaf [2; 2]; NScalar SNone; NInternal ListNode [NLeaf [2; 2]]])).
  - reflexivity.
  - simpl. lia.
  - reflexivity.
Defined.

(** X25.  Round trip of the tree codec on the objects whose model outputs
    the constructor stores as given: when every [BaseModelOutputWithPast]
    in [x] holds a tensor as its [last_hidden_state] or has another field
    that is not [None], [_unflatten] returns [x] from the template and the
    leaves that [_flatten] returns for it. *)
Theorem roundtrip_of_plain_outputs (x : pyobj) :
  model_outputs_plain x = true →
  ∃ template leaves,
    _flatten x = Ok (template, leaves)
    ∧ _unflatten template leaves = Ok x.
Proof.
  intros Hplain.
  exists (node_of x), (leaves_of x). split; [apply _flatten_eq|].
  unfold _unflatten.
  rewrite <- (app_nil_r (leaves_of x)), unflatten_dfs_roundtrip; done.
Qed.

Lemma roundtrip_of_plain_outputs_witness :
  ∃ template leaves,
    _flatten Example.model_outputs = Ok (template, leaves)
    ∧ _unflatten template leaves = Ok Example.model_outputs.
Proof. apply (roundtrip_of_plain_outputs Example.model_outputs). reflexivity. Defined.

(** X26.  Repacking replaces one leaf.  When every
    [BaseModelOutputWithPast] in the layer outputs holds a tensor as its
    [last_hidden_state] or has another field that is not [None], the unpack
    index is in range and the tensor pipeline returns a tensor for the leaf
    found there, the handling of the layer outputs returns a container
    whose template is the template of the original (same structure, same
    scalars) and whose leaves are the original leaves with the one at the
    unpack index replaced by the tensor the pipeline returned. *)
Theorem repack_replaces_one_leaf (self : HookFunction)
    (module : module_handle) (x : pyobj) (w : world) (template : node)
    (leaves : list pyobj) (t out : Tensor) (s' : hstate) :
  model_outputs_plain x = true →
  flatten x = Ok (template, leaves) →
  py_index leaves (unpack_idx self) = Some (OTensor t) →
  _template_handle_tensor module t (self, w) = (Ok out, s') →
  ∃ y,
    _template_handle_layer_outputs module x (self, w) = (Ok y, s')
    ∧ flatten y
      = Ok (template,
            <[py_position (length leaves) (unpack_idx self):=OTensor out]>
              leaves).
Proof.
  intros Hplain [-> ->]%flatten_inv Hleaf Hrun.
  pose proof (py_index_Some_in_range _ _ _ Hleaf) as Hrange.
  destruct (py_index_in_range _ _ Hrange) as [Hlookup Hpos].
  rewrite Hleaf in Hlookup. symmetry in Hlookup.
  set (pos := py_position (length (leaves_of x)) (unpack_idx self)) in *.
  destruct (py_slices_replace (leaves_of x) (unpack_idx self) (OTensor out)
              Hrange) as [extra Hslices].
  fold pos in Hslices.
  destruct (unflatten_rebuilds x Hplain (<[pos:=OTensor out]> (leaves_of x)))
    as (y & Hy & Hnode & Hleaves).
  { rewrite <- (list_insert_id (leaves_of x) pos (OTensor t)) at 1 by done.
    apply Forall2_insert.
    - apply Forall_Forall2_diag. eapply Forall_impl; [apply leaves_of_tensors|].
      intros leaf [t0 ->]. by exists t0, t0.
    - exists t, out. repeat split.
      symmetry. by eapply _template_handle_tensor_shape. }
  exists y. split.
  - unfold _template_handle_layer_outputs, bind, get_self, lift.
    cbn [fst snd]. rewrite _unpack_layer_outputs_eq, Hleaf.
    unfold ret. rewrite Hrun, Hslices.
    unfold unflatten, _unflatten. by rewrite Hy.
  - by rewrite flatten_eq, Hnode, Hleaves.
Qed.

(** The negative unpack index [-1] selects the last leaf, a tensor inside
    the third field of the model output. *)
Lemma repack_replaces_one_leaf_witness :
  ∃ y,
    _template_handle_layer_outputs None Example.model_outputs
      (Example.hook, Example.session)
    = (Ok y, (_template_handle_tensor None Example.tb
                (Example.hook, Example.session)).2)
    ∧ flatten y
      = Ok (NInternal BaseModelOutputWithPastNode
              [NLeaf [2; 2]; NScalar SNone;
               NInternal TupleNode [NLeaf [2; 2]; NLeaf [2; 2]];
               NScalar SNone],
            <[py_position 3 (-1):=OTensor Example.tb]>
              [OTensor Example.ta; OTensor Example.ta; OTensor Example.tb]).
Proof.
  apply (repack_replaces_one_leaf Example.hook None Example.model_outputs
           Example.session _
           [OTensor Example.ta; OTensor Example.ta; OTensor Example.tb]
           Example.tb Example.tb).
  - reflexivity.
  - reflexivity.
  - reflexivity.
  - reflexivity.
Defined.

(** ** The tensor pipeline *)

Local Ltac unfold_pipeline :=
  unfold _template_handle_tensor, check_runtime_functions,
    collect_offload_edit_disperse, _concretize_functions, call_transfer,
    call_offload, call_edit, bind, get_self, get_world, lift, ret, raise,
    on_self, on_world in *;
  cbn [fst snd] in *.

Lemma calls_keep_hook module t self w :
  (collect_offload_edit_disperse module t (self, w)).2.1 = self.
Proof.
  unfold_pipeline.
  destruct (_collect self) as [collect|]; [|done].
  destruct (collect t) as [full|]; [|done].
  destruct (_offload self) as [offload|]; [|done]. cbn [fst snd].
  destruct (offload full w) as [[[]|] w1]; [|done].
  destruct (_edit self) as [edit|]; [|done]. cbn [fst snd].
  destruct (edit module full (save_ctx (w_shared w1)) (modules (w_shared w1)))
    as [[edited|] ctx]; [|done].
  destruct (_disperse self) as [disperse|]; [|done].
  by destruct (disperse edited).
Qed.

Lemma pipeline_keeps_hook module t self w :
  is_None (_collect self) && is_None (_disperse self)
  && is_None (_edit self) && is_None (_offload self) = false →
  (_template_handle_tensor module t (self, w)).2.1 = self.
Proof.
  intros Hset. unfold _template_handle_tensor, bind.
  rewrite (check_runtime_functions_some_set t self w Hset).
  pose proof (calls_keep_hook module t self w) as Hcalls.
  destruct (collect_offload_edit_disperse module t (self, w))
    as [[out|e] [self' w']]; [|done].
  by case_bool_decide.
Qed.

(** X10.  The runtime functions are set at most once: as soon as one of the
    four is set, no call of the tensor pipeline or of the handling of layer
    outputs changes the hook object, whatever the call does and whether it
    returns or raises. *)
Theorem concretized_hook_is_not_rebound (self : HookFunction) (w : world)
    (module : module_handle) :
  is_None (_collect self) && is_None (_disperse self)
  && is_None (_edit self) && is_None (_offload self) = false →
  (∀ t, (_template_handle_tensor module t (self, w)).2.1 = self)
  ∧ (∀ x, (_template_handle_layer_outputs module x (self, w)).2.1 = self).
Proof.
  intros Hset. split.
  - intros t. by apply pipeline_keeps_hook.
  - intros x. unfold _template_handle_layer_outputs, bind, get_self, lift.
    cbn [fst snd].
    destruct (_unpack_layer_outputs self x) as [[leaf repack]|]; [|done].
    destruct leaf as [t| | | |]; try done. unfold ret.
    pose proof (pipeline_keeps_hook module t self w Hset) as Hkeep.
    destruct (_template_handle_tensor module t (self, w))
      as [[out|e] [self' w']]; [|done].
    cbn [fst snd] in *. by destruct (repack (OTensor out)).
Qed.

Lemma concretized_hook_is_not_rebound_witness :
  (∀ t, (_template_handle_tensor None t
           ((check_runtime_functions Example.ta
               (Example.hook, Example.session)).2.1,
            Example.session)).2.1
        = (check_runtime_functions Example.ta
             (Example.hook, Example.session)).2.1)
  ∧ (∀ x, (_template_handle_layer_outputs None x
             ((check_runtime_functions Example.ta
                 (Example.hook, Example.session)).2.1,
              Example.session)).2.1
          = (check_runtime_functions Example.ta
               (Example.hook, Example.session)).2.1).
Proof.
  apply (concretized_hook_is_not_rebound
           (check_runtime_functions Example.ta
              (Example.hook, Example.session)).2.1
           Example.session None).
  reflexivity.
Defined.

(** X11.  The first call on a fresh hook.  When the parsing of the collect
    and disperse functions fails, the call fails with that error and the
    hook stays fresh.  When the offload mode is neither CPU nor GPU, the
    call fails with a KeyError and leaves collect, disperse and edit set
    and offload unset.  Otherwise the call leaves all four functions set,
    whatever it returns. *)
Theorem first_call_sets_the_functions (name : string)
    (expected : list (option nat)) (edit : option editing_fn) (idx : Z)
    (module : module_handle) (t : Tensor) (w : world) :
  let fresh := HookFunction_init name expected edit idx in
  let after := _template_handle_tensor module t (fresh, w) in
  match parse_collect_and_distribute_from_tensor
          (rt_tp (w_runtime w)) t expected with
  | Err e => after = (Err e, (fresh, w))
  | Ok (collect, disperse) =>
      match _concretize_offload_function fresh w with
      | Err e =>
          e = KeyError
          ∧ after
            = (Err KeyError,
               (set_edit (editing_function fresh)
                  (set_transfer collect disperse fresh), w))
      | Ok offload =>
          after.2.1
          = set_offload offload
              (set_edit (editing_function fresh)
                 (set_transfer collect disperse fresh))
      end
  end.
Proof.
  intros fresh after. subst after.
  unfold _template_handle_tensor, check_runtime_functions,
    _concretize_functions, bind, get_self, get_world, lift, on_self.
  cbn [fst snd _collect _disperse _edit _offload fresh HookFunction_init
       is_None forallb id andb expected_shape].
  fold fresh.
  destruct (parse_collect_and_distribute_from_tensor _ t expected)
    as [[collect disperse]|e]; [|done].
  cbn [fst snd].
  destruct (_concretize_offload_function fresh w) as [offload|e] eqn:Hoff.
  - set (self1 := set_offload offload _).
    pose proof (calls_keep_hook module t self1 w) as Hcalls.
    destruct (collect_offload_edit_disperse module t (self1, w))
      as [[out|e] [self' w']]; [|done].
    by case_bool_decide.
  - assert (e = KeyError) as ->.
    { unfold _concretize_offload_function in Hoff.
      repeat case_bool_decide; by simplify_eq. }
    done.
Qed.

(** ** Offloading and the shared state *)

Lemma sink_entry_set_save_ctx name ctx w :
  sink_entry name (set_save_ctx ctx w) = sink_entry name w.
Proof. done. Qed.

Lemma offload_with_frame capture name t w :
  session_frame (offload_with capture name t w).2 = session_frame w
  ∧ ∀ other, other ≠ name →
      sink_entry other (offload_with capture name t w).2 = sink_entry other w.
Proof.
  unfold offload_with.
  destruct (output_ptr (w_shared w)) as [p|] eqn:Hp; [|done].
  destruct (offload_guard (w_runtime w)) as [[|]|]; try done.
  split; [done|]. intros other Hne. unfold sink_entry. cbn. rewrite Hp.
  by rewrite sink_append_other.
Qed.

Lemma calls_frame module t self w :
  offload_is_own self →
  session_frame (collect_offload_edit_disperse module t (self, w)).2.2
  = session_frame w
  ∧ ∀ other, other ≠ module_name self →
      sink_entry other (collect_offload_edit_disperse module t (self, w)).2.2
      = sink_entry other w.
Proof.
  intros Hown.
  unfold collect_offload_edit_disperse, call_transfer, call_offload,
    call_edit, bind, get_self, lift, raise, on_world.
  cbn [fst snd].
  destruct (_collect self) as [collect|]; [|done].
  destruct (collect t) as [full|]; [|done].
  destruct Hown as [->|[capture ->]]; [done|]. cbn [fst snd].
  destruct (offload_with_frame capture (module_name self) full w)
    as [Hframe Hother].
  destruct (offload_with capture (module_name self) full w) as [[[]|] w1];
    [|done].
  cbn [fst snd] in *.
  destruct (_edit self) as [edit|]; [|done]. cbn [fst snd].
  destruct (edit module full (save_ctx (w_shared w1)) (modules (w_shared w1)))
    as [[edited|] ctx]; [|done].
  destruct (_disperse self) as [disperse|]; [|done].
  by destruct (disperse edited).
Qed.

Lemma check_keeps_world t self w :
  offload_is_own self →
  (check_runtime_functions t (self, w)).2.2 = w
  ∧ offload_is_own (check_runtime_functions t (self, w)).2.1
  ∧ module_name (check_runtime_functions t (self, w)).2.1 = module_name self.
Proof.
  intros Hown.
  unfold check_runtime_functions, _concretize_functions, bind, get_self,
    get_world, lift, ret, raise, on_self.
  cbn [fst snd].
  destruct (forallb id _); [|by destruct (negb _)].
  destruct (parse_collect_and_distribute_from_tensor _ t _)
    as [[collect disperse]|]; [|done].
  cbn [fst snd]. unfold _concretize_offload_function.
  repeat case_bool_decide; cbn [fst snd]; repeat split; try done;
    try (by left); right; by eexists.
Qed.

(** X12.  A call of the tensor pipeline on a hook whose offload function is
    its own writes the output sink under its own module name only: the
    lists of captured tensors of every other module, the offload mode and
    the process state are as before, whether the call returns or raises. *)
Theorem pipeline_touches_only_its_own_entry (self : HookFunction) (w : world)
    (module : module_handle) (t : Tensor) :
  offload_is_own self →
  session_frame (_template_handle_tensor module t (self, w)).2.2
  = session_frame w
  ∧ ∀ other, other ≠ module_name self →
      sink_entry other (_template_handle_tensor module t (self, w)).2.2
      = sink_entry other w.
Proof.
  intros Hown. unfold _template_handle_tensor, bind.
  destruct (check_keeps_world t self w Hown) as (Hw & Hown1 & Hname).
  destruct (check_runtime_functions t (self, w)) as [[[]|e] [self1 w1]];
    cbn [fst snd] in *; subst w1; [|done].
  destruct (calls_frame module t self1 w Hown1) as [Hframe Hother].
  rewrite Hname in Hother.
  destruct (collect_offload_edit_disperse module t (self1, w))
    as [[out|e] [self2 w2]]; [|done].
  by case_bool_decide.
Qed.

Lemma pipeline_touches_only_its_own_entry_witness :
  session_frame (_template_handle_tensor None Example.ta
                   (Example.hook, Example.session)).2.2
  = session_frame Example.session
  ∧ ∀ other, other ≠ "layers.0" →
      sink_entry other (_template_handle_tensor None Example.ta
                          (Example.hook, Example.session)).2.2
      = sink_entry other Example.session.
Proof.
  apply (pipeline_touches_only_its_own_entry Example.hook Example.session).
  left. reflexivity.
Defined.

(** X13.  Offloading comes before editing.  With the offload function of
    GPU mode, which stores a clone of the activation, and where offloading
    is not guarded off, a call of the tensor pipeline whose collect returns
    appends the collected, not yet edited tensor to the list of the module,
    also when the editing function or disperse then fails or the shapes
    differ. *)
Theorem offload_precedes_edit (self : HookFunction) (w : world)
    (module : module_handle) (t full : Tensor) (collect : transfer_fn) :
  _collect self = Some collect →
  collect t = Ok full →
  _offload self = Some (_offload_tensor_to_gpu self) →
  is_Some (output_ptr (w_shared w)) →
  offload_guard (w_runtime w) = Ok true →
  sink_entry (module_name self)
    (_template_handle_tensor module t (self, w)).2.2
  = sink_entry (module_name self) w ++ [Captured GPU full].
Proof.
  intros Hc Hfull Hoff [p Hp] Hguard.
  unfold _template_handle_tensor, bind.
  rewrite check_runtime_functions_some_set by (by rewrite Hc).
  unfold collect_offload_edit_disperse, call_transfer, call_offload,
    call_edit, bind, get_self, lift, raise, on_world.
  cbn [fst snd]. rewrite Hc, Hfull, Hoff. cbn [fst snd].
  unfold _offload_tensor_to_gpu, offload_with at 1. rewrite Hp, Hguard.
  set (w1 := set_output_ptr _ w).
  assert (sink_entry (module_name self) w1
          = sink_entry (module_name self) w ++ [Captured GPU full]) as Hentry.
  { unfold sink_entry, w1. cbn. rewrite Hp. apply sink_append_entry. }
  destruct (_edit self) as [edit|]; [|done]. cbn [fst snd].
  destruct (edit module full (save_ctx (w_shared w1)) (modules (w_shared w1)))
    as [[edited|] ctx]; [|done].
  destruct (_disperse self) as [disperse|]; [|done].
  destruct (disperse edited) as [out|]; [|done].
  by case_bool_decide.
Qed.

Lemma offload_precedes_edit_witness :
  sink_entry "layers.0"
    (_template_handle_tensor None Example.ta
       ((check_runtime_functions Example.ta
           (Example.reshaping_hook, Example.sharded_session)).2.1,
        Example.sharded_session)).2.2
  = sink_entry "layers.0" Example.sharded_session
    ++ [Captured GPU Example.ta].
Proof.
  apply (offload_precedes_edit
           (check_runtime_functions Example.ta
              (Example.reshaping_hook, Example.sharded_session)).2.1
           Example.sharded_session None Example.ta Example.ta unity).
  - reflexivity.
  - reflexivity.
  - reflexivity.
  - eexists. reflexivity.
  - reflexivity.
Defined.

(** X14.  Where torch distributed is initialised and the active backend
    reports that activation parallelism is not initialised, or that this
    process is not in the pipeline-parallel group, the concretized offload
    function returns without storing anything, however often it is
    called. *)
Theorem offload_guarded_off (self : HookFunction) (w : world)
    (offload : offload_fn) (tensors : list Tensor) (b : DistributedBackend) :
  _concretize_offload_function self w = Ok offload →
  is_Some (output_ptr (w_shared w)) →
  torch_distributed_is_initialized (w_runtime w) = true →
  _ACTIVE_BACKEND (w_runtime w) = Some b →
  backend_act_initialized b && backend_in_pp_group b = false →
  offload_all offload tensors w = (Ok (), w).
Proof.
  intros Hoffload [p Hp] Hdist Hbackend Hb.
  assert (offload_guard (w_runtime w) = Ok false) as Hguard.
  { unfold offload_guard, activation_parallel_is_initialized,
      in_pipeline_parallel_group.
    rewrite Hdist, Hbackend. simpl.
    by destruct (backend_act_initialized b), (backend_in_pp_group b). }
  assert (∃ dev, offload = offload_with (Captured dev) (module_name self))
    as [dev ->].
  { unfold _concretize_offload_function in Hoffload.
    repeat case_bool_decide; simplify_eq; [by exists CPU|by exists GPU]. }
  induction tensors as [|t tensors IH]; [done|].
  cbn [offload_all]. unfold offload_with at 1. by rewrite Hp, Hguard.
Qed.

Lemma offload_guarded_off_witness :
  offload_all (_offload_tensor_to_gpu Example.hook) [Example.ta; Example.tb]
    (World (Shared ∅ [] "GPU" (Some ∅))
       (Runtime true NO
          (Some (Backend TorchDistributedBackend (DeviceMesh 2 2 1 1)
                         true false))
          Example.two_ranks))
  = (Ok (),
     World (Shared ∅ [] "GPU" (Some ∅))
       (Runtime true NO
          (Some (Backend TorchDistributedBackend (DeviceMesh 2 2 1 1)
                         true false))
          Example.two_ranks)).
Proof.
  apply (offload_guarded_off Example.hook _ _ _
           (Backend TorchDistributedBackend (DeviceMesh 2 2 1 1) true false)).
  - reflexivity.
  - eexists. reflexivity.
  - reflexivity.
  - reflexivity.
  - reflexivity.
Defined.

(** X15.  The two assertions of the offload functions.  Without an output
    sink the call fails on [output_ptr is not None], whatever the
    distributed state.  With a sink, torch distributed initialised and the
    backend destroyed, the call fails on the assertion of
    [activation_parallel_is_initialized].  In both cases nothing is
    stored. *)
Theorem offload_assertions (self : HookFunction) (w : world)
    (offload : offload_fn) (t : Tensor) :
  _concretize_offload_function self w = Ok offload →
  (output_ptr (w_shared w) = None →
   offload t w = (Err OutputPtrIsNoneError, w))
  ∧ (∀ rt, is_Some (output_ptr (w_shared w)) →
           torch_distributed_is_initialized rt = true →
           w_runtime w = destroy_distributed_backend rt →
           offload t w = (Err NoActiveBackendError, w)).
Proof.
  intros Hoffload.
  assert (∃ dev, offload = offload_with (Captured dev) (module_name self))
    as [dev ->].
  { unfold _concretize_offload_function in Hoffload.
    repeat case_bool_decide; simplify_eq; [by exists CPU|by exists GPU]. }
  split.
  - intros Hp. unfold offload_with. by rewrite Hp.
  - intros rt [p Hp] Hdist Hrt. unfold offload_with. rewrite Hp, Hrt.
    unfold offload_guard, destroy_distributed_backend, set_active_backend.
    cbn. by rewrite Hdist.
Qed.

Lemma offload_assertions_witness :
  _offload_tensor_to_cpu Example.hook Example.ta
    (World (Shared ∅ [] "CPU" None) Example.single_process)
  = (Err OutputPtrIsNoneError,
     World (Shared ∅ [] "CPU" None) Example.single_process)
  ∧ _offload_tensor_to_cpu Example.hook Example.ta
      (World (Shared ∅ [] "CPU" (Some ∅))
         (destroy_distributed_backend
            (Runtime true NO None Example.two_ranks)))
    = (Err NoActiveBackendError,
       World (Shared ∅ [] "CPU" (Some ∅))
         (destroy_distributed_backend
            (Runtime true NO None Example.two_ranks))).
Proof.
  split.
  - apply (offload_assertions Example.hook
             (World (Shared ∅ [] "CPU" None) Example.single_process));
      reflexivity.
  - apply (proj2 (offload_assertions Example.hook
                    (World (Shared ∅ [] "CPU" (Some ∅))
                       (destroy_distributed_backend
                          (Runtime true NO None Example.two_ranks)))
                    _ Example.ta eq_refl)
             (Runtime true NO None Example.two_ranks)).
    + eexists. reflexivity.
    + reflexivity.
    + reflexivity.
Defined.

(** ** The entry point of a hook *)

Lemma hook_type_unknown (name : string) :
  name ∉ ["forward"; "full_backward"; "tensor"; "forward_pre";
          "full_backward_pre"] →
  hook_type_to_impl_fn !! name = None.
Proof.
  intros Hname. unfold hook_type_to_impl_fn.
  apply not_elem_of_list_to_map_1. exact Hname.
Qed.

(** X16.  What a call checks before any handling runs.  Keyword arguments
    make the call fail with NotImplementedError, whatever the hook type.
    Without them, a hook that was never given a hook type, or one whose
    hook type is not one of the five known names, fails with the KeyError
    of the dispatch table.  In each case the hook and the shared state are
    untouched. *)
Theorem call_rejects_kwargs_and_unknown_types :
  (∀ ty args kw kwargs s,
     HookFunction_call ty args (kw :: kwargs) s = (Raised KwargsError, s))
  ∧ (∀ args s,
       HookFunction_call None args [] s = (Raised HookTypeKeyError, s))
  ∧ (∀ name args s,
       name ∉ ["forward"; "full_backward"; "tensor"; "forward_pre";
               "full_backward_pre"] →
       HookFunction_call (Some name) args [] s
       = (Raised HookTypeKeyError, s)).
Proof.
  split; [done|]. split; [done|].
  intros name args s Hname.
  unfold HookFunction_call, _dispatch_hook_function.
  change (Some name ≫= (hook_type_to_impl_fn !!.))
    with (hook_type_to_impl_fn !! name).
  by rewrite (hook_type_unknown name Hname).
Qed.

Lemma call_rejects_kwargs_and_unknown_types_witness :
  HookFunction_call (Some "backward")
    (ArgsModule2 None Example.outputs Example.outputs) []
    (Example.hook, Example.session)
  = (Raised HookTypeKeyError, (Example.hook, Example.session)).
Proof.
  apply (proj2 (proj2 call_rejects_kwargs_and_unknown_types)).
  intros Hin. repeat (apply elem_of_cons in Hin as [Hin|Hin]; [discriminate|]).
  by apply elem_of_nil in Hin.
Defined.

(** X19.  A tensor hook returns a tensor of the shape of the gradient it
    was given, or raises; given an object that is not a tensor it raises
    the AttributeError of [tensor.shape] and touches nothing. *)
Theorem tensor_hook_keeps_the_shape :
  (∀ grad s y s',
     HookFunction_call (Some "tensor") (ArgsTensor (OTensor grad)) [] s
     = (Returned y, s') →
     ∃ out, y = OTensor out ∧ t_shape out = t_shape grad)
  ∧ (∀ x s,
       is_leaf_obj x = false →
       HookFunction_call (Some "tensor") (ArgsTensor x) [] s
       = (Raised (PipelineError NoShapeAttributeError), s)).
Proof.
  split.
  - intros grad s y s'.
    change (HookFunction_call (Some "tensor") (ArgsTensor (OTensor grad)) [] s)
      with (run_pipeline (out <- _template_handle_tensor None grad ;;
                          ret (OTensor out)) s).
    unfold run_pipeline, bind, ret.
    destruct (_template_handle_tensor None grad s) as [[out|e] s1] eqn:Hrun;
      [|done].
    intros [= <- <-]. exists out. split; [done|].
    by eapply _template_handle_tensor_shape.
  - intros x s Hx. by destruct x as [t| | | |[]].
Qed.

Lemma tensor_hook_keeps_the_shape_witness :
  (∃ out, OTensor Example.ta = OTensor out
          ∧ t_shape out = t_shape Example.ta)
  ∧ HookFunction_call (Some "tensor") (ArgsTensor (OScalar SNone)) []
      (Example.hook, Example.session)
    = (Raised (PipelineError NoShapeAttributeError),
       (Example.hook, Example.session)).
Proof.
  split.
  - apply (proj1 tensor_hook_keeps_the_shape Example.ta
             (Example.hook, Example.session) (OTensor Example.ta)
             (_template_handle_tensor None Example.ta
                (Example.hook, Example.session)).2).
    reflexivity.
  - apply (proj2 tensor_hook_keeps_the_shape). reflexivity.
Defined.

(** ** The distributed backend *)

Lemma _parse_backend_eq (rt : runtime) :
  _parse_backend rt
  = Ok (match torch_distributed_is_initialized rt,
              partial_state_distributed_type rt with
        | true, (DEEPSPEED | FSDP | MEGATRON_LM) => AccelerateDistributedBackend
        | _, _ => TorchDistributedBackend
        end).
Proof.
  unfold _parse_backend.
  by destruct (torch_distributed_is_initialized rt),
       (partial_state_distributed_type rt).
Qed.

(** X20.  [_parse_backend] never raises NotImplementedError: it returns
    the accelerate backend when torch distributed is initialised and the
    distributed type is DeepSpeed, FSDP or Megatron-LM, and the torch
    backend in every other case. *)
Theorem _parse_backend_never_unsupported (rt : runtime) :
  _parse_backend rt
  = Ok (match torch_distributed_is_initialized rt,
              partial_state_distributed_type rt with
        | true, (DEEPSPEED | FSDP | MEGATRON_LM) => AccelerateDistributedBackend
        | _, _ => TorchDistributedBackend
        end).
Proof. apply _parse_backend_eq. Qed.

(** X21.  The life cycle of the backend.  After a successful
    initialisation the backend is reported as initialised and the queries
    on it answer without assertion failure.  After
    [destroy_distributed_backend] it is reported as not initialised and the
    queries fail on their assertion; destroying undoes the initialisation
    and destroying twice is destroying once. *)
Theorem backend_life_cycle (world_size tp pp dp : Z) (rt : runtime) :
  world_size = (tp * pp * dp)%Z →
  let rt1 := (initialize_distributed_backend world_size tp pp dp rt).2 in
  distributed_backend_is_initialized rt1 = true
  ∧ (∃ b, activation_parallel_is_initialized rt1 = Ok b)
  ∧ (∃ b, in_pipeline_parallel_group rt1 = Ok b)
  ∧ distributed_backend_is_initialized (destroy_distributed_backend rt1)
    = false
  ∧ activation_parallel_is_initialized (destroy_distributed_backend rt1)
    = Err NoActiveBackendError
  ∧ in_pipeline_parallel_group (destroy_distributed_backend rt1)
    = Err NoActiveBackendError
  ∧ destroy_distributed_backend rt1 = destroy_distributed_backend rt
  ∧ destroy_distributed_backend (destroy_distributed_backend rt1)
    = destroy_distributed_backend rt1.
Proof.
  intros Hsize rt1. subst rt1.
  unfold initialize_distributed_backend, GPUDeviceMesh_build.
  destruct (_parse_backend_returns rt) as [cls ->].
  rewrite !bool_decide_true by done. cbn.
  repeat split; by eexists.
Qed.

Lemma backend_life_cycle_witness :
  distributed_backend_is_initialized
    (initialize_distributed_backend 4 2 2 1
       (Runtime true NO None Example.two_ranks)).2
  = true.
Proof.
  apply (backend_life_cycle 4 2 2 1 (Runtime true NO None Example.two_ranks)).
  reflexivity.
Defined.

(** X22.  Nothing guards against initialising twice: a successful
    initialisation replaces whatever backend an earlier call installed, so
    that the state after two calls is the state after the second alone. *)
Theorem reinitialisation_overwrites (world_size tp pp dp : Z)
    (world_size' tp' pp' dp' : Z) (rt : runtime) :
  world_size = (tp * pp * dp)%Z →
  initialize_distributed_backend world_size tp pp dp
    (initialize_distributed_backend world_size' tp' pp' dp' rt).2
  = initialize_distributed_backend world_size tp pp dp rt.
Proof.
  intros Hsize.
  unfold initialize_distributed_backend, GPUDeviceMesh_build.
  rewrite !(bool_decide_true (world_size = _)) by done. cbn [negb].
  rewrite !_parse_backend_eq.
  case_bool_decide; cbn; done.
Qed.

Lemma reinitialisation_overwrites_witness :
  initialize_distributed_backend 4 2 2 1
    (initialize_distributed_backend 8 2 2 2
       (Runtime true NO None Example.two_ranks)).2
  = initialize_distributed_backend 4 2 2 1
      (Runtime true NO None Example.two_ranks).
Proof.
  apply (reinitialisation_overwrites 4 2 2 1 8 2 2 2). reflexivity.
Defined.

(** ** The editing function inside the pipeline *)

Lemma offload_with_keeps_ctx capture name t w :
  save_ctx (w_shared (offload_with capture name t w).2) = save_ctx (w_shared w)
  ∧ modules (w_shared (offload_with capture name t w).2)
    = modules (w_shared w).
Proof.
  unfold offload_with.
  destruct (output_ptr (w_shared w)); [|done].
  by destruct (offload_guard (w_runtime w)) as [[|]|].
Qed.

(** X23.  The editing function is called once, with the collected tensor,
    the save context and the registry of modules of the shared state, and
    the save context it leaves is the one the shared state holds after the
    call, whether the editing function, disperse or the assertion on shapes
    then fails or not. *)
Theorem edit_gets_the_collected_tensor (self : HookFunction) (w : world)
    (module : module_handle) (t full : Tensor) (collect : transfer_fn)
    (edit : editing_fn) (capture : Tensor → captured) :
  _collect self = Some collect →
  collect t = Ok full →
  _offload self = Some (offload_with capture (module_name self)) →
  _edit self = Some edit →
  is_Some (output_ptr (w_shared w)) →
  (∃ b, offload_guard (w_runtime w) = Ok b) →
  save_ctx (w_shared (_template_handle_tensor module t (self, w)).2.2)
  = (edit module full (save_ctx (w_shared w)) (modules (w_shared w))).2.
Proof.
  intros Hc Hfull Hoff Hedit Hptr Hguard.
  unfold _template_handle_tensor, bind.
  rewrite check_runtime_functions_some_set by (by rewrite Hc).
  unfold collect_offload_edit_disperse, call_transfer, call_offload,
    call_edit, bind, get_self, lift, raise, on_world.
  cbn [fst snd]. rewrite Hc, Hfull, Hoff, Hedit. cbn [fst snd].
  pose proof (offload_with_keeps_ctx capture (module_name self) full w)
    as [Hctx Hmods].
  destruct (offload_with_runs capture (module_name self) full w Hptr Hguard)
    as (w1 & Hrun & Hrt & Hptr1).
  rewrite Hrun in Hctx, Hmods |- *. cbn [fst snd] in *.
  rewrite Hctx, Hmods.
  destruct (edit module full (save_ctx (w_shared w)) (modules (w_shared w)))
    as [[edited|] ctx]; [|done].
  destruct (_disperse self) as [disperse|]; [|done].
  destruct (disperse edited) as [out|]; [|done].
  by case_bool_decide.
Qed.

Lemma edit_gets_the_collected_tensor_witness :
  save_ctx
    (w_shared
       (_template_handle_tensor None Example.ta
          ((check_runtime_functions Example.ta
              (Example.reshaping_hook, Example.session)).2.1,
           Example.session)).2.2)
  = (Example.reshaping_edit None Example.ta
       (save_ctx (w_shared Example.session))
       (modules (w_shared Example.session))).2.
Proof.
  apply (edit_gets_the_collected_tensor
           (check_runtime_functions Example.ta
              (Example.reshaping_hook, Example.session)).2.1
           Example.session None Example.ta Example.ta unity
           Example.reshaping_edit (Captured CPU)).
  - reflexivity.
  - reflexivity.
  - reflexivity.
  - reflexivity.
  - eexists. reflexivity.
  - eexists. reflexivity.
Defined.

(** X24.  A forward hook with the default editing function returns the
    layer outputs as they were: when every [BaseModelOutputWithPast] in the
    outputs holds a tensor as its [last_hidden_state] or has another field
    that is not [None], disperse undoes collect on the selected tensor and
    offloading can run, the call returns the outputs it was given. *)
Theorem default_forward_hook_returns_outputs (self : HookFunction)
    (w : world) (module : module_handle) (inputs outputs : pyobj)
    (template : node) (leaves : list pyobj) (t full : Tensor)
    (collect disperse : transfer_fn) (capture : Tensor → captured) :
  model_outputs_plain outputs = true →
  flatten outputs = Ok (template, leaves) →
  py_index leaves (unpack_idx self) = Some (OTensor t) →
  _collect self = Some collect →
  _disperse self = Some disperse →
  _edit self = Some default_editing_function →
  _offload self = Some (offload_with capture (module_name self)) →
  collect t = Ok full →
  disperse full = Ok t →
  is_Some (output_ptr (w_shared w)) →
  (∃ b, offload_guard (w_runtime w) = Ok b) →
  ∃ s', HookFunction_call (Some "forward")
          (ArgsModule2 module inputs outputs) [] (self, w)
        = (Returned outputs, s').
Proof.
  intros Hplain Hflat Hleaf Hc Hd Hedit Hoff Hfull Hback Hptr Hguard.
  destruct (offload_with_runs capture (module_name self) full w Hptr Hguard)
    as (w1 & Hrun & Hrt & Hptr1).
  assert (_template_handle_tensor module t (self, w)
          = (Ok t, (self, set_save_ctx (save_ctx (w_shared w1)) w1)))
    as Hpipe.
  { unfold _template_handle_tensor, bind.
    rewrite check_runtime_functions_some_set by (by rewrite Hc).
    unfold collect_offload_edit_disperse, call_transfer, call_offload,
      call_edit, bind, get_self, lift, raise, on_world.
    cbn [fst snd]. rewrite Hc, Hfull, Hoff, Hedit, Hd. cbn [fst snd].
    rewrite Hrun. unfold default_editing_function. rewrite Hback.
    by rewrite bool_decide_true. }
  pose proof (py_index_Some_in_range _ _ _ Hleaf) as Hrange.
  destruct (repack_selected_leaf self outputs _ _ Hplain Hflat Hrange)
    as (leaf & repack & Hunpack & Hleaf' & Hrepack).
  rewrite Hleaf in Hleaf'. simplify_eq.
  eexists.
  change (HookFunction_call (Some "forward")
            (ArgsModule2 module inputs outputs) [] (self, w))
    with (run_pipeline (_template_handle_layer_outputs module outputs)
            (self, w)).
  unfold run_pipeline, _template_handle_layer_outputs, bind, get_self, lift,
    ret.
  cbn [fst snd]. rewrite Hunpack, Hpipe, Hrepack. done.
Qed.

Lemma default_forward_hook_returns_outputs_witness :
  ∃ s', HookFunction_call (Some "forward")
          (ArgsModule2 None (OScalar SNone) Example.outputs) []
          ((check_runtime_functions Example.tb
              (Example.hook, Example.session)).2.1,
           Example.session)
        = (Returned Example.outputs, s').
Proof.
  apply (default_forward_hook_returns_outputs
           (check_runtime_functions Example.tb
              (Example.hook, Example.session)).2.1
           Example.session None (OScalar SNone) Example.outputs
           (NInternal TupleNode
              [NLeaf [2; 2]; NScalar SNone; NInternal ListNode [NLeaf [2; 2]]])
           [OTensor Example.ta; OTensor Example.tb] Example.tb Example.tb
           unity unity (Captured CPU)).
  - reflexivity.
  - reflexivity.
  - reflexivity.
  - reflexivity.
  - reflexivity.
  - reflexivity.
  - reflexivity.
  - reflexivity.
  - reflexivity.
  - eexists. reflexivity.
  - eexists. reflexivity.
Defined.
